(** * HealthCare-frontend-web: the authentication client layer

    A shallow embedding of the two source files of the repository:

    - the [useAuth] hook (redirect resolver [getRedirectPath] and the
      mutations wrapping the remote authentication actions), and
    - the form-validation schemas ([registerSchema],
      [resetPasswordSchema], [changePasswordSchema], ...).

    JavaScript strings are modelled as [string], the query cache as a
    finite map from query keys to entries, and the side effects of the
    success and error handlers (cache writes, [router.push],
    [toast.success] / [toast.error]) as transformers of an explicit client
    state. *)

From Stdlib Require Import ZArith Ascii String List Bool Lia.
From stdpp Require Import base option list strings gmap fin_maps.

Open Scope string_scope.
Open Scope list_scope.

(** ** JavaScript strings and values *)

Module Js.

(** [hay.includes(needle)]: [needle] occurs somewhere in [hay]. *)
Fixpoint includes (hay needle : string) : bool :=
  String.prefix needle hay
  || match hay with
     | EmptyString => false
     | String _ rest => includes rest needle
     end.

(** Truthiness of a string: only the empty string is falsy. *)
Definition truthy_str (s : string) : bool :=
  match s with
  | EmptyString => false
  | String _ _ => true
  end.

(** An optional string property or parameter ([x?: string]): [None] is
    [undefined].  [truthy_opt] is its use as a condition. *)
Definition truthy_opt (o : option string) : bool :=
  match o with
  | Some s => truthy_str s
  | None => false
  end.

(** [o || fallback] where [o] is [undefined] or a string and the fallback a
    string. *)
Definition or_str (o : option string) (fallback : string) : string :=
  match o with
  | Some s => if truthy_str s then s else fallback
  | None => fallback
  end.

(** [o || null], the result read as an optional string ([None] is [null]
    or [undefined]). *)
Definition or_null (o : option string) : option string :=
  match o with
  | Some s => if truthy_str s then Some s else None
  | None => None
  end.

(** Raw JavaScript values, as a form hands them to a schema. *)
Inductive Value : Type :=
| Undefined
| Null
| Bool (b : bool)
| Num (n : Z)
| NaN
| Str (s : string).

(** A thrown value:
    - an [Error] instance with its message;
    - [NotAnError]: a value that is not an [Error], is neither [null] nor
      [undefined], and has no [message] property (a thrown string or
      number, an object without a message);
    - [Nullish]: [null] or [undefined], on which reading a property throws
      a [TypeError];
    - [Plain]: an object that is not an [Error] and has a [message]
      property, a string. *)
Inductive Thrown : Type :=
| Error (message : string)
| NotAnError
| Nullish
| Plain (message : string).

Definition instanceof_Error (e : Thrown) : bool :=
  match e with
  | Error _ => true
  | _ => false
  end.

(** How an expression ends: with a value, or by throwing a [TypeError]. *)
Inductive Completion (A : Type) : Type :=
| Normal (a : A)
| TypeError.

Arguments Normal {A} a.
Arguments TypeError {A}.

(** [e.message]: the property when [e] has properties ([None] is
    [undefined]); on [null] and [undefined] the read throws. *)
Definition message (e : Thrown) : Completion (option string) :=
  match e with
  | Error m => Normal (Some m)
  | Plain m => Normal (Some m)
  | NotAnError => Normal None
  | Nullish => TypeError
  end.

(** The settled state of a promise. *)
Inductive Outcome (A : Type) : Type :=
| Resolved (a : A)
| Rejected (e : Thrown).

Arguments Resolved {A} a.
Arguments Rejected {A} e.

End Js.

(** ** Roles and routes *)

(** Modelled from the spec: the [Role] enumeration of [@/types/auth.types],
    which is not part of the sources; the five members are those the
    registration schema lists, and each member's value is its name. *)
Inductive Role : Type :=
| SUPER_ADMIN
| CLINIC_ADMIN
| DOCTOR
| RECEPTIONIST
| PATIENT.

Definition Role_value (r : Role) : string :=
  match r with
  | SUPER_ADMIN => "SUPER_ADMIN"
  | CLINIC_ADMIN => "CLINIC_ADMIN"
  | DOCTOR => "DOCTOR"
  | RECEPTIONIST => "RECEPTIONIST"
  | PATIENT => "PATIENT"
  end.

Definition all_roles : list Role :=
  [SUPER_ADMIN; CLINIC_ADMIN; DOCTOR; RECEPTIONIST; PATIENT].

(** The [user] argument of the resolver, [{ role?: Role } | null |
    undefined]: [None] is [null] or [undefined], [Some None] an object
    without a role. *)
Definition UserRef : Type := option (option Role).

(** [user?.role] *)
Definition role_of (user : UserRef) : option Role :=
  match user with
  | Some r => r
  | None => None
  end.

Definition LOGIN_PATH : string := "/auth/login".

Section Resolver.

(** [getDashboardByRole] of [@/config/routes]: the configured mapping from
    a role to its dashboard path. *)
Variable getDashboardByRole : Role -> string.

(** [getRedirectPath(user, redirectUrl)] *)
Definition getRedirectPath (user : UserRef) (redirectUrl : option string) : string :=
  let by_role :=
    match role_of user with
    | Some role => getDashboardByRole role
    | None => LOGIN_PATH (* Default to login if no role *)
    end in
  match redirectUrl with
  | Some url =>
      if Js.truthy_str url && negb (Js.includes url "/auth/") then url
      else by_role
  | None => by_role
  end.

End Resolver.

(** ** The client state the hook acts on *)

(** The user object of an authentication response.  [role] is what
    [getDashboardByRole(data.user.role)] reads; the optional profile fields
    are those the login mutation fills in; [other] holds every remaining
    property, which the object spread copies unchanged. *)
Record User : Type := mkUser {
  role : Role;
  firstName : option string;
  lastName : option string;
  phone : option string;
  dateOfBirth : option string;
  gender : option string;
  address : option string;
  other : gmap string Js.Value
}.

(** [AuthResponse]: [{ user?, token?, redirectUrl?, message? }]. *)
Record AuthResponse : Type := mkAuthResponse {
  user : option User;
  token : option string;
  redirectUrl : option string;
  message : option string
}.

(** [GoogleLoginResponse]: the user is always there, with an optional
    [name]. *)
Record GoogleLoginResponse : Type := mkGoogleLoginResponse {
  g_role : Role;
  g_name : option string;
  g_redirectUrl : option string
}.

(** What the login mutation hands to its success handler and stores:
    [{ ...result, user }], a response whose user is there. *)
Record Session : Type := mkSession {
  s_user : User;
  s_token : option string;
  s_redirectUrl : option string;
  s_message : option string
}.

(** [{ message: string }], also [{ success: boolean; message: string }]. *)
Record MessageResponse : Type := mkMessageResponse {
  m_message : string
}.

(** The data of a cached query: [null], a session as the login mutation
    stores it, or any other value (what a query function returned). *)
Inductive QueryData : Type :=
| DataNull
| DataSession (s : Session)
| DataOther (v : Js.Value).

(** A cached query: its data and whether it was marked stale by
    [invalidateQueries]. *)
Record Query : Type := mkQuery {
  data : QueryData;
  isInvalidated : bool
}.

(** A query key is an array, here of strings. *)
Abbreviation QueryKey := (list string).

Definition SESSION : QueryKey := ["session"].

Inductive ToastLevel : Type := Success | Failure.

(** One call of [toast.success] or [toast.error]; the text is [None] when
    the argument was [undefined]. *)
Record Toast : Type := mkToast {
  level : ToastLevel;
  text : option string
}.

(** The query cache, the paths pushed on the router and the toasts shown,
    the latter two in the order of the calls. *)
Record ClientState : Type := mkClientState {
  cache : gmap (list string) Query;
  pushed : list string;
  toasts : list Toast
}.

(** A handler body: a sequence of effects on the client state. *)
Definition Eff : Type := ClientState -> ClientState.

Definition andThen (e1 e2 : Eff) : Eff := fun st => e2 (e1 st).
Definition skip : Eff := fun st => st.

Declare Scope eff_scope.
Delimit Scope eff_scope with eff.
Bind Scope eff_scope with Eff.
Notation "e1 ;; e2" := (andThen e1 e2)
  (at level 100, e2 at level 200, right associativity) : eff_scope.

Module queryClient.

(** [queryClient.clear()] *)
Definition clear : Eff :=
  fun st => mkClientState ∅ (pushed st) (toasts st).

(** [queryClient.setQueryData(key, data)] with [data] not [undefined]:
    the query is created or overwritten, and is fresh. *)
Definition setQueryData (key : QueryKey) (d : QueryData) : Eff :=
  fun st => mkClientState (<[key := mkQuery d false]> (cache st)) (pushed st) (toasts st).

(** A query key matches a filter key when the filter key is a prefix of
    it. *)
Fixpoint partialMatchKey (filter key : QueryKey) : bool :=
  match filter, key with
  | [], _ => true
  | f :: filter', k :: key' => String.eqb f k && partialMatchKey filter' key'
  | _ :: _, [] => false
  end.

(** [queryClient.invalidateQueries({ queryKey })]: every matching query is
    marked stale (the refetch of the active ones happens later, outside
    the handler). *)
Definition invalidateQueries (filter : QueryKey) : Eff :=
  fun st =>
    mkClientState
      (map_imap (fun key q =>
                   Some (if partialMatchKey filter key
                         then mkQuery (data q) true
                         else q))
                (cache st))
      (pushed st) (toasts st).

End queryClient.

Module router.

(** [router.push(path)] *)
Definition push (path : string) : Eff :=
  fun st => mkClientState (cache st) (pushed st ++ [path]) (toasts st).

End router.

Module toast.

Definition success (msg : option string) : Eff :=
  fun st => mkClientState (cache st) (pushed st) (toasts st ++ [mkToast Success msg]).

Definition error (msg : option string) : Eff :=
  fun st => mkClientState (cache st) (pushed st) (toasts st ++ [mkToast Failure msg]).

End toast.

(** [useMutation({ mutationFn, onSuccess, onError })], run on one call:
    the handler chosen by how the promise of [mutationFn] settles.  A
    mutation without a handler uses [skip]. *)
Definition useMutation {D : Type} (mutationFn : Js.Outcome D)
    (onSuccess : D -> Eff) (onError : Js.Thrown -> Eff) : Eff :=
  match mutationFn with
  | Js.Resolved d => onSuccess d
  | Js.Rejected e => onError e
  end.

(** ** The hook *)

Section useAuth.

Variable getDashboardByRole : Role -> string.

Local Open Scope eff_scope.

(** [data.user] as the resolver receives it. *)
Definition user_ref (u : option User) : UserRef :=
  match u with
  | Some u => Some (Some (role u))
  | None => None
  end.

(** [error instanceof Error ? error.message : fallback] *)
Definition message_if_Error (e : Js.Thrown) (fallback : string) : option string :=
  if Js.instanceof_Error e
  then match Js.message e with
       | Js.Normal m => m
       | Js.TypeError => None
       end
  else Some fallback.

(** A handler that starts by reading a property: when the read throws,
    the handler ends there, before any of its effects, and the exception
    stays inside the mutation. *)
Definition reading {A : Type} (read : Js.Completion A) (handler : A -> Eff) : Eff :=
  match read with
  | Js.Normal a => handler a
  | Js.TypeError => skip
  end.

(** *** The session query *)


(** *** Login *)

Definition login_mutationFn (loginAction : Js.Outcome AuthResponse) : Js.Outcome Session :=
  match loginAction with
  | Js.Rejected e => Js.Rejected e
  | Js.Resolved result =>
      match user result with
      | None => Js.Rejected (Js.Error "Invalid user data received")
      | Some u =>
          let user :=
            {| role := role u;
               firstName := Some (Js.or_str (firstName u) "");
               lastName := Some (Js.or_str (lastName u) "");
               phone := Some (Js.or_str (phone u) "");
               dateOfBirth := Js.or_null (dateOfBirth u);
               gender := Some (Js.or_str (gender u) "");
               address := Some (Js.or_str (address u) "");
               other := other u |} in
          Js.Resolved (mkSession user (token result) (redirectUrl result) (message result))
      end
  end.

Definition login_onSuccess (data : Session) : Eff :=
  queryClient.setQueryData SESSION (DataSession data) ;;
  let dashboardPath := getDashboardByRole (role (s_user data)) in
  router.push dashboardPath ;;
  toast.success
    (Some ("Welcome back"
           +:+ (if Js.truthy_opt (firstName (s_user data))
                then ", " +:+ default "" (firstName (s_user data))
                else "")
           +:+ "!")).

Definition login_onError (error : Js.Thrown) : Eff :=
  reading (Js.message error)
    (fun message => toast.error (Some (Js.or_str message "Login failed"))).

Definition loginMutation (loginAction : Js.Outcome AuthResponse) : Eff :=
  useMutation (login_mutationFn loginAction) login_onSuccess login_onError.

(** *** Google login *)

Definition googleLogin (googleLoginAction : Js.Outcome GoogleLoginResponse) : Eff :=
  useMutation googleLoginAction
    (fun data =>
       queryClient.invalidateQueries SESSION ;;
       let redirectPath :=
         getRedirectPath getDashboardByRole (Some (Some (g_role data))) (g_redirectUrl data) in
       router.push redirectPath ;;
       toast.success
         (Some ("Welcome"
                +:+ (if Js.truthy_opt (g_name data)
                     then ", " +:+ default "" (g_name data)
                     else "")
                +:+ "!")))
    (fun error => toast.error (message_if_Error error "Google login failed")).

(** *** Registration *)

Definition registerMutation {A : Type} (registerAction : Js.Outcome A) : Eff :=
  useMutation registerAction
    (fun _ =>
       toast.success
         (Some "Registration successful. Please check your email to verify your account.") ;;
       router.push "/auth/login")
    (fun error =>
       reading (Js.message error)
         (fun message => toast.error (Some (Js.or_str message "Registration failed")))).

(** *** Logout *)

(** The mutation function resolves to [{ success: true }], modelled as
    [tt]. *)
Definition logout_mutationFn {A : Type} (logoutAction : Js.Outcome A) : Js.Outcome unit :=
  match logoutAction with
  | Js.Resolved _ => Js.Resolved tt
  | Js.Rejected error =>
      (* If it's a 401 or session-related error, treat as success *)
      match error with
      | Js.Error msg =>
          if Js.includes msg "401" || Js.includes msg "Session" || Js.includes msg "session"
          then Js.Resolved tt
          else Js.Rejected error
      | _ => Js.Rejected error
      end
  end.

Definition logout_onSuccess : Eff :=
  (* Clear all query cache *)
  queryClient.clear ;;
  (* Clear any stored auth state *)
  queryClient.setQueryData SESSION DataNull ;;
  router.push "/auth/login" ;;
  toast.success (Some "Logged out successfully").

Definition logout_onError (error : Js.Thrown) : Eff :=
  (* Clear client state even if server logout fails *)
  queryClient.clear ;;
  queryClient.setQueryData SESSION DataNull ;;
  router.push "/auth/login" ;;
  toast.error (Some "Logged out locally, but server logout failed").

Definition logoutMutation {A : Type} (logoutAction : Js.Outcome A) : Eff :=
  useMutation (logout_mutationFn logoutAction) (fun _ => logout_onSuccess) logout_onError.

(** *** Registration with a clinic *)

Definition registerWithClinic (registerWithClinicAction : Js.Outcome AuthResponse) : Eff :=
  useMutation registerWithClinicAction
    (fun data =>
       queryClient.invalidateQueries SESSION ;;
       (match user data with
        | Some u => router.push (getDashboardByRole (role u))
        | None =>
            if Js.truthy_opt (redirectUrl data)
            then router.push (default "" (redirectUrl data))
            else router.push "/auth/login?registered=true"
        end) ;;
       toast.success (Some "Registration successful"))
    (fun error => toast.error (message_if_Error error "Registration failed")).

(** *** One-time passwords *)

Definition verifyOTP (verifyOTPAction : Js.Outcome AuthResponse) : Eff :=
  useMutation verifyOTPAction
    (fun data =>
       queryClient.invalidateQueries SESSION ;;
       let redirectPath :=
         getRedirectPath getDashboardByRole (user_ref (user data)) (redirectUrl data) in
       router.push redirectPath ;;
       toast.success (Some "OTP verified successfully! Welcome back!"))
    (fun error => toast.error (message_if_Error error "Invalid or expired OTP")).

Definition requestOTP (requestOTPAction : Js.Outcome MessageResponse) : Eff :=
  useMutation requestOTPAction
    (fun data =>
       toast.success (Some (m_message data)) ;;
       queryClient.invalidateQueries SESSION)
    (fun error => reading (Js.message error) (fun message => toast.error message)).

(** *** Password reset *)

Definition forgotPassword (forgotPasswordAction : Js.Outcome AuthResponse) : Eff :=
  useMutation forgotPasswordAction
    (fun data =>
       toast.success
         (Some (Js.or_str (message data) "Password reset instructions sent to your email")))
    (fun error => toast.error (message_if_Error error "Failed to request password reset")).

Definition resetPassword (resetPasswordAction : Js.Outcome AuthResponse) : Eff :=
  useMutation resetPasswordAction
    (fun data =>
       router.push "/auth/login?reset=true" ;;
       toast.success (Some (Js.or_str (message data) "Password reset successful")))
    (fun error => toast.error (message_if_Error error "Password reset failed")).

(** *** Social login *)

Definition socialLogin (socialLoginAction : Js.Outcome AuthResponse) : Eff :=
  useMutation socialLoginAction
    (fun data =>
       queryClient.invalidateQueries SESSION ;;
       let redirectPath :=
         getRedirectPath getDashboardByRole (user_ref (user data)) (redirectUrl data) in
       router.push redirectPath ;;
       toast.success (Some "Logged in successfully"))
    (fun error => toast.error (message_if_Error error "Social login failed")).

(** *** Magic links *)

Definition requestMagicLink (requestMagicLinkAction : Js.Outcome AuthResponse) : Eff :=
  useMutation requestMagicLinkAction
    (fun data =>
       toast.success (Some (Js.or_str (message data) "Magic link sent to your email")))
    (fun error => toast.error (message_if_Error error "Failed to send magic link")).

Definition verifyMagicLink (verifyMagicLinkAction : Js.Outcome AuthResponse) : Eff :=
  useMutation verifyMagicLinkAction
    (fun data =>
       queryClient.invalidateQueries SESSION ;;
       let redirectPath :=
         getRedirectPath getDashboardByRole (user_ref (user data)) (redirectUrl data) in
       router.push redirectPath ;;
       toast.success (Some "Logged in successfully"))
    (fun error => toast.error (message_if_Error error "Magic link verification failed")).

(** *** Change of password *)

Definition changePassword (changePasswordAction : Js.Outcome AuthResponse) : Eff :=
  useMutation changePasswordAction
    (fun _ =>
       queryClient.invalidateQueries SESSION ;;
       toast.success (Some "Password changed successfully"))
    (fun error => reading (Js.message error) (fun message => toast.error message)).

(** *** Termination of all sessions *)

Definition terminateAllSessionsMutation {A : Type} (terminateAllSessions : Js.Outcome A) : Eff :=
  useMutation terminateAllSessions
    (fun _ =>
       queryClient.clear ;;
       queryClient.setQueryData SESSION DataNull ;;
       router.push "/auth/login" ;;
       toast.success (Some "All sessions terminated successfully"))
    (fun error =>
       reading (Js.message error)
         (fun message =>
            toast.error (Some (Js.or_str message "Failed to terminate all sessions")))).

(** *** OTP status, OTP invalidation, e-mail verification *)

Definition checkOTPStatus (checkOTPStatusAction : Js.Outcome bool) : Eff :=
  useMutation checkOTPStatusAction
    (fun _ => skip)
    (fun error => reading (Js.message error) (fun message => toast.error message)).

Definition invalidateOTP (invalidateOTPAction : Js.Outcome MessageResponse) : Eff :=
  useMutation invalidateOTPAction
    (fun data => toast.success (Some (m_message data)))
    (fun error => reading (Js.message error) (fun message => toast.error message)).

Definition verifyEmail (verifyEmailAction : Js.Outcome MessageResponse) : Eff :=
  useMutation verifyEmailAction
    (fun data =>
       queryClient.invalidateQueries SESSION ;;
       toast.success (Some (m_message data)) ;;
       router.push "/auth/login")
    (fun error => reading (Js.message error) (fun message => toast.error message)).

(** *** Facebook and Apple *)

Definition facebookLogin (facebookLoginAction : Js.Outcome AuthResponse) : Eff :=
  useMutation facebookLoginAction
    (fun data =>
       queryClient.invalidateQueries SESSION ;;
       let redirectPath :=
         getRedirectPath getDashboardByRole (user_ref (user data)) (redirectUrl data) in
       router.push redirectPath ;;
       toast.success (Some "Logged in with Facebook successfully"))
    (fun error => reading (Js.message error) (fun message => toast.error message)).

(** The Apple mutation function is [Promise.resolve()], and the mutation
    has no handlers. *)
Definition appleLogin : Eff :=
  useMutation (Js.Resolved tt) (fun _ => skip) (fun _ => skip).

(** [handleAuthRedirect] *)
Definition handleAuthRedirect (user : UserRef) (redirectUrl : option string) : Eff :=
  let path := getRedirectPath getDashboardByRole user redirectUrl in
  router.push path.

End useAuth.

(** ** The validation library, as far as the schemas use it *)

Module z.

(** The kinds of issue the schemas can raise. *)
Inductive IssueCode : Type :=
| invalid_type
| invalid_enum_value
| too_small
| too_big
| invalid_string
| custom.

(** An issue: where it is attached, its kind, and its message; the message
    is [None] where the schema gives none and the library's default text
    is used. *)
Record Issue : Type := mkIssue {
  path : list string;
  code : IssueCode;
  message : option string
}.

(** How a parse ended: valid, dirty (a check failed, parsing went on) or
    aborted (no value was produced). *)
Inductive Status (A : Type) : Type :=
| OK (a : A)
| DIRTY (a : A)
| INVALID.

Arguments OK {A} a.
Arguments DIRTY {A} a.
Arguments INVALID {A}.

(** A parse returns its status and the issues it raised, in order. *)
Definition Return (A : Type) : Type := (Status A * list Issue)%type.

Definition Schema (A : Type) : Type := Js.Value -> Return A.

Definition issues {A : Type} (r : Return A) : list Issue := snd r.

Definition aborted {A : Type} (r : Return A) : bool :=
  match fst r with
  | INVALID => true
  | _ => false
  end.

(** A regular expression that is one character class, [[...]] or
    [[^...]], over ranges of characters. *)
Inductive RegExp : Type :=
| Class (ranges : list (ascii * ascii))
| NegClass (ranges : list (ascii * ascii)).

Definition in_ranges (ranges : list (ascii * ascii)) (c : ascii) : bool :=
  existsb (fun r => (nat_of_ascii (fst r) <=? nat_of_ascii c)%nat
                    && (nat_of_ascii c <=? nat_of_ascii (snd r))%nat) ranges.

(** [re.test(s)]: some character of [s] is in the class. *)
Definition test (re : RegExp) (s : string) : bool :=
  match re with
  | Class ranges => existsb (in_ranges ranges) (list_ascii_of_string s)
  | NegClass ranges => existsb (fun c => negb (in_ranges ranges c)) (list_ascii_of_string s)
  end.

(** The checks chained on [z.string()]. *)
Inductive Check : Type :=
| min (n : nat) (msg : string)
| length (n : nat) (msg : string)
| regex (re : RegExp) (msg : string)
| email (msg : string).

Section Parsing.

(** The library's test for an e-mail address. *)
Variable isEmail : string -> bool.

Definition check_passes (s : string) (c : Check) : bool :=
  match c with
  | min n _ => (n <=? String.length s)%nat
  | length n _ => (String.length s =? n)%nat
  | regex re _ => test re s
  | email _ => isEmail s
  end.

Definition check_issue (s : string) (c : Check) : Issue :=
  match c with
  | min _ msg => mkIssue [] too_small (Some msg)
  | length n msg =>
      mkIssue [] (if (n <? String.length s)%nat then too_big else too_small) (Some msg)
  | regex _ msg => mkIssue [] invalid_string (Some msg)
  | email msg => mkIssue [] invalid_string (Some msg)
  end.

(** [z.string()] followed by its checks: a value that is not a string
    aborts; on a string every check runs, and each failing one adds its
    issue. *)
Definition string (checks : list Check) : Schema string :=
  fun v =>
    match v with
    | Js.Str s =>
        match List.filter (fun c => negb (check_passes s c)) checks with
        | [] => (OK s, [])
        | failed => (DIRTY s, List.map (check_issue s) failed)
        end
    | _ => (INVALID, [mkIssue [] invalid_type None])
    end.

End Parsing.

(** [z.boolean()] *)
Definition boolean : Schema bool :=
  fun v =>
    match v with
    | Js.Bool b => (OK b, [])
    | _ => (INVALID, [mkIssue [] invalid_type None])
    end.

(** [z.number()]: [NaN] is not accepted. *)
Definition number : Schema Z :=
  fun v =>
    match v with
    | Js.Num n => (OK n, [])
    | _ => (INVALID, [mkIssue [] invalid_type None])
    end.

(** [z.enum([...])]: a string among the listed ones. *)
Definition enum (values : list String.string) : Schema String.string :=
  fun v =>
    match v with
    | Js.Str s =>
        if existsb (String.eqb s) values then (OK s, [])
        else (INVALID, [mkIssue [] invalid_enum_value None])
    | _ => (INVALID, [mkIssue [] invalid_type None])
    end.

(** [schema.optional()] *)
Definition optional {A : Type} (schema : Schema A) : Schema (option A) :=
  fun v =>
    match v with
    | Js.Undefined => (OK None, [])
    | _ =>
        match schema v with
        | (OK a, iss) => (OK (Some a), iss)
        | (DIRTY a, iss) => (DIRTY (Some a), iss)
        | (INVALID, iss) => (INVALID, iss)
        end
    end.

(** [schema.default(d)]: [undefined] is replaced by [d] before parsing. *)
Definition default {A : Type} (schema : Schema A) (d : Js.Value) : Schema A :=
  fun v =>
    match v with
    | Js.Undefined => schema d
    | _ => schema v
    end.

(** The outcome of [schema.refine(pred, { message, path })] on the outcome
    of [schema]: nothing is checked after an abort; otherwise the
    predicate runs, also on a dirty value, and its failure adds a custom
    issue at [path] and makes the value dirty. *)
Definition refine {A : Type} (r : Return A) (pred : A -> bool)
    (msg : String.string) (at_path : list String.string) : Return A :=
  match r with
  | (INVALID, iss) => (INVALID, iss)
  | (OK a, iss) =>
      if pred a then (OK a, iss)
      else (DIRTY a, (iss ++ [mkIssue at_path custom (Some msg)])%list)
  | (DIRTY a, iss) =>
      if pred a then (DIRTY a, iss)
      else (DIRTY a, (iss ++ [mkIssue at_path custom (Some msg)])%list)
  end.

(** A form's raw field bag: a missing key reads as [undefined]. *)
Definition get (input : gmap String.string Js.Value) (key : String.string) : Js.Value :=
  match input !! key with
  | Some v => v
  | None => Js.Undefined
  end.

(** One key of [z.object({...})]: the key's schema runs on the key's
    value, and its issues are attached under the key. *)
Definition field {A : Type} (key : String.string) (schema : Schema A)
    (input : gmap String.string Js.Value) : Return A :=
  let '(st, iss) := schema (get input key) in
  (st, List.map (fun i => mkIssue (key :: path i) (code i) (message i)) iss).

(** The start of an object: no key parsed yet. *)
Definition object {A : Type} (build : A) : Return A := (OK build, []).

(** Adding a key to an object: every key is parsed and all issues are
    kept; the object is aborted as soon as one key is, dirty when one is
    dirty. *)
Definition and_field {A B : Type} (rf : Return (A -> B)) (ra : Return A) : Return B :=
  (match fst rf, fst ra with
   | INVALID, _ => INVALID
   | _, INVALID => INVALID
   | OK f, OK a => OK (f a)
   | OK f, DIRTY a => DIRTY (f a)
   | DIRTY f, OK a => DIRTY (f a)
   | DIRTY f, DIRTY a => DIRTY (f a)
   end,
   (snd rf ++ snd ra)%list).

(** The result of [safeParse]. *)
Inductive SafeParse (A : Type) : Type :=
| success (data : A)
| failure (error : list Issue).

Arguments success {A} data.
Arguments failure {A} error.

Definition safeParse {A : Type} (r : Return A) : SafeParse A :=
  match r with
  | (OK a, _) => success a
  | (_, iss) => failure iss
  end.

End z.

Notation "rf <*> ra" := (z.and_field rf ra) (at level 50, left associativity).

(** ** The schemas *)

Section Schemas.

Variable isEmail : string -> bool.

(** Schema for requesting OTP *)
Definition requestOtpSchema (input : gmap string Js.Value) : z.Return string :=
  z.object (fun email : string => email)
  <*> z.field "email" (z.string isEmail [z.email "Please enter a valid email address"]) input.

Record PasswordLoginFormData : Type := mkPasswordLoginFormData {
  login_email : string;
  login_password : string;
  login_rememberMe : option bool
}.

(** Schema for password login *)
Definition passwordLoginSchema (input : gmap string Js.Value)
  : z.Return PasswordLoginFormData :=
  z.object mkPasswordLoginFormData
  <*> z.field "email" (z.string isEmail [z.email "Please enter a valid email address"]) input
  <*> z.field "password"
        (z.string isEmail [z.min 8 "Password must be at least 8 characters"]) input
  <*> z.field "rememberMe" (z.optional z.boolean) input.

Record OtpVerifyFormData : Type := mkOtpVerifyFormData {
  otp_email : string;
  otp_otp : string;
  otp_rememberMe : option bool
}.

(** Schema for OTP verification/login *)
Definition otpVerifySchema (input : gmap string Js.Value) : z.Return OtpVerifyFormData :=
  z.object mkOtpVerifyFormData
  <*> z.field "email" (z.string isEmail [z.email "Please enter a valid email address"]) input
  <*> z.field "otp" (z.string isEmail [z.length 6 "OTP must be 6 digits"]) input
  <*> z.field "rememberMe" (z.optional z.boolean) input.

Definition forgotPasswordSchema (input : gmap string Js.Value) : z.Return string :=
  z.object (fun email : string => email)
  <*> z.field "email" (z.string isEmail [z.email "Please enter a valid email address"]) input.

(** [createRoleEnum()] *)
Definition createRoleEnum : z.Schema string :=
  z.enum [Role_value SUPER_ADMIN; Role_value CLINIC_ADMIN; Role_value DOCTOR;
          Role_value RECEPTIONIST; Role_value PATIENT].

Record RegisterFormData : Type := mkRegisterFormData {
  reg_email : string;
  reg_password : string;
  reg_confirmPassword : string;
  reg_firstName : string;
  reg_lastName : string;
  reg_phone : string;
  reg_gender : string;
  reg_role : string;
  reg_age : Z;
  reg_terms : bool
}.

(** The [password] key of [registerSchema]. *)
Definition register_password : z.Schema string :=
  z.string isEmail
    [z.min 8 "Password must be at least 8 characters";
     z.regex (z.Class [("A", "Z")%char]) "Password must contain at least one uppercase letter";
     z.regex (z.Class [("a", "z")%char]) "Password must contain at least one lowercase letter";
     z.regex (z.Class [("0", "9")%char]) "Password must contain at least one number";
     z.regex (z.NegClass [("A", "Z")%char; ("a", "z")%char; ("0", "9")%char])
       "Password must contain at least one special character"].

(** The [terms] key of [registerSchema]. *)
Definition register_terms : z.Schema bool :=
  fun v =>
    z.refine (z.boolean v) (fun val => Bool.eqb val true)
      "You must accept the terms and conditions" [].

(** The object of [registerSchema], before its refinement. *)
Definition registerObject (input : gmap string Js.Value) : z.Return RegisterFormData :=
  z.object mkRegisterFormData
  <*> z.field "email" (z.string isEmail [z.email "Please enter a valid email address"]) input
  <*> z.field "password" register_password input
  <*> z.field "confirmPassword" (z.string isEmail []) input
  <*> z.field "firstName"
        (z.string isEmail [z.min 2 "First name must be at least 2 characters"]) input
  <*> z.field "lastName"
        (z.string isEmail [z.min 2 "Last name must be at least 2 characters"]) input
  <*> z.field "phone"
        (z.string isEmail [z.min 10 "Phone number must be at least 10 characters"]) input
  <*> z.field "gender" (z.default (z.enum ["MALE"; "FEMALE"; "OTHER"]) (Js.Str "MALE")) input
  <*> z.field "role" (z.default createRoleEnum (Js.Str (Role_value PATIENT))) input
  <*> z.field "age" (z.default z.number (Js.Num 18)) input
  <*> z.field "terms" register_terms input.

Definition registerSchema (input : gmap string Js.Value) : z.Return RegisterFormData :=
  z.refine (registerObject input)
    (fun data => String.eqb (reg_password data) (reg_confirmPassword data))
    "Passwords don't match" ["confirmPassword"].

Record ResetPasswordFormData : Type := mkResetPasswordFormData {
  reset_password : string;
  reset_confirmPassword : string;
  reset_token : string
}.

Definition resetPasswordObject (input : gmap string Js.Value)
  : z.Return ResetPasswordFormData :=
  z.object mkResetPasswordFormData
  <*> z.field "password"
        (z.string isEmail [z.min 8 "Password must be at least 8 characters"]) input
  <*> z.field "confirmPassword" (z.string isEmail []) input
  <*> z.field "token" (z.string isEmail []) input.

Definition resetPasswordSchema (input : gmap string Js.Value)
  : z.Return ResetPasswordFormData :=
  z.refine (resetPasswordObject input)
    (fun data => String.eqb (reset_password data) (reset_confirmPassword data))
    "Passwords don't match" ["confirmPassword"].

Record ChangePasswordFormData : Type := mkChangePasswordFormData {
  change_currentPassword : string;
  change_newPassword : string;
  change_confirmPassword : string
}.

(** The [newPassword] key of [changePasswordSchema]. *)
Definition changePassword_newPassword : z.Schema string :=
  z.string isEmail
    [z.min 8 "Password must be at least 8 characters";
     z.regex (z.Class [("A", "Z")%char]) "Password must contain at least one uppercase letter";
     z.regex (z.Class [("a", "z")%char]) "Password must contain at least one lowercase letter";
     z.regex (z.Class [("0", "9")%char]) "Password must contain at least one number";
     z.regex (z.NegClass [("A", "Z")%char; ("a", "z")%char; ("0", "9")%char])
       "Password must contain at least one special character"].

Definition changePasswordObject (input : gmap string Js.Value)
  : z.Return ChangePasswordFormData :=
  z.object mkChangePasswordFormData
  <*> z.field "currentPassword"
        (z.string isEmail [z.min 1 "Current password is required"]) input
  <*> z.field "newPassword" changePassword_newPassword input
  <*> z.field "confirmPassword" (z.string isEmail []) input.

Definition changePasswordSchema (input : gmap string Js.Value)
  : z.Return ChangePasswordFormData :=
  z.refine (changePasswordObject input)
    (fun data => String.eqb (change_newPassword data) (change_confirmPassword data))
    "Passwords don't match" ["confirmPassword"].

End Schemas.

(** A route table to run the hook on: one dashboard path per role. *)
Definition example_dashboards (r : Role) : string :=
  match r with
  | SUPER_ADMIN => "/super-admin/dashboard"
  | CLINIC_ADMIN => "/clinic-admin/dashboard"
  | DOCTOR => "/doctor/dashboard"
  | RECEPTIONIST => "/receptionist/dashboard"
  | PATIENT => "/patient/dashboard"
  end.

(** An e-mail test to run the schemas with. *)
Definition example_isEmail (s : string) : bool := Js.includes s "@".

(** * Properties *)

(** ** Strings *)

Lemma append_nil (s : string) : "" +:+ s = s.
Proof. reflexivity. Qed.

Lemma append_cons (c : ascii) (s t : string) :
  String c s +:+ t = String c (s +:+ t).
Proof. reflexivity. Qed.

Lemma prefix_iff (needle hay : string) :
  String.prefix needle hay = true <-> exists rest, hay = needle +:+ rest.
Proof.
  revert hay. induction needle as [|a needle IH]; intros hay.
  - destruct hay; simpl; split; eauto.
  - destruct hay as [|b hay]; simpl.
    + split; [discriminate | intros [rest H]; discriminate].
    + destruct (ascii_dec a b) as [->|Hne].
      * rewrite IH. split; intros [rest H]; exists rest;
          rewrite append_cons in *; congruence.
      * split; [discriminate |].
        intros [rest H]. rewrite append_cons in H. congruence.
Qed.

Lemma includes_nil (needle : string) :
  Js.includes "" needle = String.prefix needle "" || false.
Proof. reflexivity. Qed.

Lemma includes_cons (c : ascii) (hay needle : string) :
  Js.includes (String c hay) needle
  = String.prefix needle (String c hay) || Js.includes hay needle.
Proof. reflexivity. Qed.

(** [includes] is substring containment. *)
Lemma includes_iff (hay needle : string) :
  Js.includes hay needle = true <->
  exists before after, hay = before +:+ needle +:+ after.
Proof.
  induction hay as [|c hay IH].
  - rewrite includes_nil, orb_false_r, prefix_iff. split.
    + intros [rest H]. exists "", rest. exact H.
    + intros [before [after H]]. destruct before as [|c before].
      * rewrite append_nil in H. eauto.
      * rewrite append_cons in H. discriminate.
  - rewrite includes_cons, orb_true_iff, prefix_iff, IH. split.
    + intros [[rest H] | [before [after H]]].
      * exists "", rest. exact H.
      * exists (String c before), after. rewrite append_cons. congruence.
    + intros [before [after H]]. destruct before as [|c' before].
      * left. rewrite append_nil in H. eauto.
      * right. rewrite append_cons in H. exists before, after. congruence.
Qed.

Lemma includes_middle (before needle after : string) :
  Js.includes (before +:+ needle +:+ after) needle = true.
Proof. apply includes_iff. eauto. Qed.

Lemma truthy_str_iff (s : string) : Js.truthy_str s = true <-> s <> "".
Proof. destruct s; simpl; split; congruence. Qed.

(** ** The redirect resolver *)

Section ResolverFacts.

Variable getDashboardByRole : Role -> string.

Lemma getRedirectPath_fallthrough (user : UserRef) (redirectUrl : option string) :
  match redirectUrl with
  | Some url => Js.truthy_str url && negb (Js.includes url "/auth/") = false
  | None => True
  end ->
  getRedirectPath getDashboardByRole user redirectUrl =
  match role_of user with
  | Some r => getDashboardByRole r
  | None => LOGIN_PATH
  end.
Proof.
  unfold getRedirectPath. destruct redirectUrl as [url|]; [|reflexivity].
  intros ->. reflexivity.
Qed.

Lemma getRedirectPath_explicit (user : UserRef) (url : string) :
  url <> "" -> Js.includes url "/auth/" = false ->
  getRedirectPath getDashboardByRole user (Some url) = url.
Proof.
  intros Hne Hauth. unfold getRedirectPath.
  apply truthy_str_iff in Hne. rewrite Hne, Hauth. reflexivity.
Qed.

End ResolverFacts.

(** C2, as the specification words it, does not hold: an explicit
    redirect that is given and does not contain ["/auth/"] is not always
    returned.  The empty string is given, has nothing to do with the
    authentication section, and is not what the resolver returns: the
    guard [redirectUrl && ...] treats it as no redirect at all. *)
Lemma getRedirectPath_given_redirect_not_always_returned :
  ~ (forall (getDashboardByRole : Role -> string) (user : UserRef) (url : string),
        Js.includes url "/auth/" = false ->
        getRedirectPath getDashboardByRole user (Some url) = url).
Proof.
  intros H.
  specialize (H example_dashboards None "" eq_refl).
  vm_compute in H. discriminate H.
Qed.

(** C2 (amended): the resolver returns the explicit redirect unchanged when
    it is a non-empty string that does not contain ["/auth/"]; in every
    other case (no redirect, the empty string, a redirect containing
    ["/auth/"]) it returns the dashboard path configured for the user's
    role when the user has one, and the login path otherwise.  In
    particular [resolve(null, "/dashboard/x") = "/dashboard/x"],
    [resolve(null, "/auth/callback")] is the login path,
    [resolve({role: DOCTOR}, undefined)] is the doctor's dashboard path and
    [resolve({}, undefined)] is the login path. *)
Theorem getRedirectPath_three_branches
    (getDashboardByRole : Role -> string) (user : UserRef) (redirectUrl : option string) :
  (forall url,
     redirectUrl = Some url -> url <> "" -> Js.includes url "/auth/" = false ->
     getRedirectPath getDashboardByRole user redirectUrl = url)
  /\ (redirectUrl = None \/ redirectUrl = Some ""
      \/ (exists url, redirectUrl = Some url /\ Js.includes url "/auth/" = true) ->
      (forall r, role_of user = Some r ->
         getRedirectPath getDashboardByRole user redirectUrl = getDashboardByRole r)
      /\ (role_of user = None ->
          getRedirectPath getDashboardByRole user redirectUrl = LOGIN_PATH))
  /\ getRedirectPath getDashboardByRole None (Some "/dashboard/x") = "/dashboard/x"
  /\ getRedirectPath getDashboardByRole None (Some "/auth/callback") = LOGIN_PATH
  /\ getRedirectPath getDashboardByRole (Some (Some DOCTOR)) None = getDashboardByRole DOCTOR
  /\ getRedirectPath getDashboardByRole (Some None) None = LOGIN_PATH.
Proof.
  split; [|split; [|repeat split; reflexivity]].
  - intros url -> Hne Hauth. apply getRedirectPath_explicit; assumption.
  - intros Hcase.
    assert (Hfall : getRedirectPath getDashboardByRole user redirectUrl =
                    match role_of user with
                    | Some r => getDashboardByRole r
                    | None => LOGIN_PATH
                    end).
    { apply getRedirectPath_fallthrough.
      destruct Hcase as [-> | [-> | [url [-> Hauth]]]]; [exact I | reflexivity |].
      rewrite Hauth. apply andb_false_r. }
    rewrite Hfall. split.
    + intros r ->. reflexivity.
    + intros ->. reflexivity.
Qed.

Lemma getRedirectPath_three_branches_witness :
  getRedirectPath example_dashboards (Some (Some DOCTOR)) (Some "/dashboard/x")
  = "/dashboard/x"
  /\ getRedirectPath example_dashboards (Some (Some DOCTOR)) (Some "/auth/callback")
     = "/doctor/dashboard"
  /\ getRedirectPath example_dashboards (Some None) (Some "") = "/auth/login".
Proof.
  split; [|split].
  - apply (proj1 (getRedirectPath_three_branches
                    example_dashboards (Some (Some DOCTOR)) (Some "/dashboard/x"))
             "/dashboard/x" eq_refl).
    + discriminate.
    + reflexivity.
  - apply (proj1 (proj1 (proj2 (getRedirectPath_three_branches
                    example_dashboards (Some (Some DOCTOR)) (Some "/auth/callback")))
             (or_intror (or_intror (ex_intro _ "/auth/callback" (conj eq_refl eq_refl)))))
             DOCTOR eq_refl).
  - apply (proj2 (proj1 (proj2 (getRedirectPath_three_branches
                    example_dashboards (Some None) (Some "")))
             (or_intror (or_introl eq_refl))) eq_refl).
Defined.

(** C10: an explicit redirect in which ["/auth/"] occurs anywhere, as in
    ["/dashboard/auth/x"], is ignored: the resolver returns the dashboard
    path of the user's role, or the login path when there is no role. *)
Theorem getRedirectPath_ignores_any_auth_substring
    (getDashboardByRole : Role -> string) (user : UserRef) (url : string) :
  (exists before after, url = before +:+ "/auth/" +:+ after) ->
  getRedirectPath getDashboardByRole user (Some url) =
  match role_of user with
  | Some r => getDashboardByRole r
  | None => LOGIN_PATH
  end.
Proof.
  intros Hsub. apply includes_iff in Hsub.
  apply getRedirectPath_fallthrough. rewrite Hsub. apply andb_false_r.
Qed.

Lemma getRedirectPath_ignores_any_auth_substring_witness :
  getRedirectPath example_dashboards (Some (Some PATIENT)) (Some "/dashboard/auth/x")
  = "/patient/dashboard"
  /\ getRedirectPath example_dashboards None (Some "/dashboard/auth/x") = "/auth/login".
Proof.
  split.
  - apply (getRedirectPath_ignores_any_auth_substring
             example_dashboards (Some (Some PATIENT)) "/dashboard/auth/x").
    exists "/dashboard", "x". reflexivity.
  - apply (getRedirectPath_ignores_any_auth_substring
             example_dashboards None "/dashboard/auth/x").
    exists "/dashboard", "x". reflexivity.
Defined.

(** ** The mutations *)

(** [needle] occurs in [hay]. *)
Definition occurs_in (needle hay : string) : Prop :=
  exists before after, hay = before +:+ needle +:+ after.

Lemma includes_true (hay needle : string) :
  Js.includes hay needle = true <-> occurs_in needle hay.
Proof. apply includes_iff. Qed.

Lemma includes_false (hay needle : string) :
  Js.includes hay needle = false <-> ~ occurs_in needle hay.
Proof.
  rewrite <- includes_true. destruct (Js.includes hay needle); split; congruence.
Qed.

(** The state after a failure that only shows an error toast. *)
Definition only_error_toast (t : option string) (st : ClientState) : ClientState :=
  mkClientState (cache st) (pushed st) (toasts st ++ [mkToast Failure t]).

(** The state after the local part of a logout: the cache holds nothing
    but a [null] session, the login path was pushed, one toast was
    shown. *)
Definition logged_out_locally (t : Toast) (st : ClientState) : ClientState :=
  mkClientState {[ SESSION := mkQuery DataNull false ]}
                (pushed st ++ ["/auth/login"])
                (toasts st ++ [t]).

Lemma logout_onSuccess_eq (st : ClientState) :
  logout_onSuccess st
  = logged_out_locally (mkToast Success (Some "Logged out successfully")) st.
Proof. reflexivity. Qed.

Lemma logout_onError_eq (e : Js.Thrown) (st : ClientState) :
  logout_onError e st
  = logged_out_locally
      (mkToast Failure (Some "Logged out locally, but server logout failed")) st.
Proof. reflexivity. Qed.

(** Which errors the logout mutation function swallows. *)
Lemma logout_mutationFn_rejected (e : Js.Thrown) :
  logout_mutationFn (A := unit) (Js.Rejected e) =
  match e with
  | Js.Error msg =>
      if Js.includes msg "401" || Js.includes msg "Session" || Js.includes msg "session"
      then Js.Resolved tt else Js.Rejected e
  | _ => Js.Rejected e
  end.
Proof. destruct e; reflexivity. Qed.

(** C1: when the remote logout throws an error whose message contains
    ["401"], ["Session"] or ["session"], the logout counts as a success:
    the whole cache is cleared, the cached session is [null], the login
    path is pushed and the success toast is shown.  For every other error
    the cache is cleared and the login path pushed all the same, and the
    toast is the error toast saying that the server logout failed. *)
Theorem logout_session_errors_are_success (msg : string) (st : ClientState) :
  (occurs_in "401" msg \/ occurs_in "Session" msg \/ occurs_in "session" msg ->
   logout_mutationFn (A := unit) (Js.Rejected (Js.Error msg)) = Js.Resolved tt
   /\ logoutMutation (A := unit) (Js.Rejected (Js.Error msg)) st
      = mkClientState {[ SESSION := mkQuery DataNull false ]}
                      (pushed st ++ ["/auth/login"])
                      (toasts st ++ [mkToast Success (Some "Logged out successfully")]))
  /\ (~ occurs_in "401" msg /\ ~ occurs_in "Session" msg /\ ~ occurs_in "session" msg ->
      logout_mutationFn (A := unit) (Js.Rejected (Js.Error msg))
      = Js.Rejected (Js.Error msg)
      /\ logoutMutation (A := unit) (Js.Rejected (Js.Error msg)) st
         = mkClientState {[ SESSION := mkQuery DataNull false ]}
             (pushed st ++ ["/auth/login"])
             (toasts st
              ++ [mkToast Failure (Some "Logged out locally, but server logout failed")])).
Proof.
  unfold logoutMutation. rewrite logout_mutationFn_rejected. split.
  - intros H.
    assert (Hb : Js.includes msg "401" || Js.includes msg "Session"
                 || Js.includes msg "session" = true).
    { rewrite !orb_true_iff, !includes_true. tauto. }
    rewrite Hb. split; reflexivity.
  - intros (H1 & H2 & H3).
    apply includes_false in H1, H2, H3. rewrite H1, H2, H3. split; reflexivity.
Qed.

Lemma logout_session_errors_are_success_witness :
  logoutMutation (A := unit) (Js.Rejected (Js.Error "No active session found"))
    (mkClientState {[ SESSION := mkQuery (DataOther (Js.Str "cached")) false ]} [] [])
  = mkClientState {[ SESSION := mkQuery DataNull false ]} ["/auth/login"]
      [mkToast Success (Some "Logged out successfully")]
  /\ logoutMutation (A := unit) (Js.Rejected (Js.Error "Network error"))
       (mkClientState {[ SESSION := mkQuery (DataOther (Js.Str "cached")) false ]} [] [])
     = mkClientState {[ SESSION := mkQuery DataNull false ]} ["/auth/login"]
         [mkToast Failure (Some "Logged out locally, but server logout failed")].
Proof.
  split.
  - refine (proj2 (proj1 (logout_session_errors_are_success
                            "No active session found" _) _)).
    right. right. exists "No active ", " found". reflexivity.
  - refine (proj2 (proj2 (logout_session_errors_are_success "Network error" _) _)).
    rewrite <- !includes_false. repeat split; reflexivity.
Defined.

(** *** Login *)

Lemma or_str_empty (o : option string) : Js.or_str o "" = default "" o.
Proof. destruct o as [[|c s]|]; reflexivity. Qed.

(** The user the login mutation function builds from the user of the
    response. *)
Lemma login_mutationFn_user (result : AuthResponse) (u : User) :
  user result = Some u ->
  exists data,
    login_mutationFn (Js.Resolved result) = Js.Resolved data
    /\ s_token data = token result
    /\ s_redirectUrl data = redirectUrl result
    /\ s_message data = message result
    /\ role (s_user data) = role u
    /\ other (s_user data) = other u
    /\ firstName (s_user data) = Some (default "" (firstName u))
    /\ lastName (s_user data) = Some (default "" (lastName u))
    /\ phone (s_user data) = Some (default "" (phone u))
    /\ gender (s_user data) = Some (default "" (gender u))
    /\ address (s_user data) = Some (default "" (address u))
    /\ dateOfBirth (s_user data)
       = match dateOfBirth u with
         | Some "" => None
         | Some date => Some date
         | None => None
         end.
Proof.
  intros Hu. unfold login_mutationFn. rewrite Hu.
  eexists. split; [reflexivity|]. cbn [s_token s_redirectUrl s_message s_user
    role other firstName lastName phone gender address dateOfBirth].
  rewrite !or_str_empty. repeat split.
  destruct (dateOfBirth u) as [[|c s]|]; reflexivity.
Qed.

(** C3: a login whose response has a user stores the normalized response
    under the session key (the optional profile fields that are missing
    become the empty string, a missing date of birth [null]; the rest is
    kept), pushes the dashboard path of the user's role, and shows a
    welcome toast that contains the first name when there is one. *)
Theorem login_success_stores_navigates_welcomes
    (getDashboardByRole : Role -> string) (result : AuthResponse) (u : User)
    (st : ClientState) :
  user result = Some u ->
  exists data welcome,
    login_mutationFn (Js.Resolved result) = Js.Resolved data
    /\ role (s_user data) = role u
    /\ other (s_user data) = other u
    /\ firstName (s_user data) = Some (default "" (firstName u))
    /\ lastName (s_user data) = Some (default "" (lastName u))
    /\ phone (s_user data) = Some (default "" (phone u))
    /\ gender (s_user data) = Some (default "" (gender u))
    /\ address (s_user data) = Some (default "" (address u))
    /\ dateOfBirth (s_user data)
       = match dateOfBirth u with
         | Some "" => None
         | Some date => Some date
         | None => None
         end
    /\ loginMutation getDashboardByRole (Js.Resolved result) st
       = mkClientState (<[SESSION := mkQuery (DataSession data) false]> (cache st))
                       (pushed st ++ [getDashboardByRole (role u)])
                       (toasts st ++ [mkToast Success (Some welcome)])
    /\ (forall name, firstName u = Some name -> name <> "" ->
        welcome = "Welcome back, " +:+ name +:+ "!" /\ occurs_in name welcome)
    /\ (firstName u = None \/ firstName u = Some "" -> welcome = "Welcome back!").
Proof.
  intros Hu.
  destruct (login_mutationFn_user result u Hu)
    as (data & Hfn & _ & _ & _ & Hrole & Hother & Hfirst & Hlast & Hphone
        & Hgender & Haddress & Hdob).
  exists data. eexists.
  split; [exact Hfn|].
  do 8 (split; [assumption|]).
  split.
  - unfold loginMutation. rewrite Hfn. unfold useMutation, login_onSuccess.
    unfold andThen, queryClient.setQueryData, router.push, toast.success.
    cbn [cache pushed toasts]. rewrite Hrole. reflexivity.
  - rewrite Hfirst. split.
    + intros name -> Hne. destruct name as [|c name]; [congruence|].
      split; [reflexivity|].
      exists "Welcome back, ", "!". reflexivity.
    + intros [-> | ->]; reflexivity.
Qed.

Lemma login_success_stores_navigates_welcomes_witness :
  exists data welcome,
    loginMutation example_dashboards
      (Js.Resolved
         (mkAuthResponse
            (Some (mkUser DOCTOR (Some "Jo") None None None None None ∅))
            None None None))
      (mkClientState ∅ [] [])
    = mkClientState {[ SESSION := mkQuery (DataSession data) false ]}
                    ["/doctor/dashboard"]
                    [mkToast Success (Some welcome)]
    /\ role (s_user data) = DOCTOR
    /\ firstName (s_user data) = Some "Jo"
    /\ lastName (s_user data) = Some ""
    /\ dateOfBirth (s_user data) = None
    /\ welcome = "Welcome back, Jo!"
    /\ occurs_in "Jo" welcome.
Proof.
  destruct (login_success_stores_navigates_welcomes example_dashboards
              (mkAuthResponse
                 (Some (mkUser DOCTOR (Some "Jo") None None None None None ∅))
                 None None None)
              (mkUser DOCTOR (Some "Jo") None None None None None ∅)
              (mkClientState ∅ [] []) eq_refl)
    as (data & welcome & _ & Hrole & _ & Hfirst & Hlast & _ & _ & _ & Hdob
        & Hrun & Hname & _).
  exists data, welcome.
  destruct (Hname "Jo" eq_refl ltac:(discriminate)) as [Hw Hocc].
  repeat split; assumption.
Defined.

(** C7: a login whose response has no user is an error: the message of
    the error is shown in an error toast; nothing is pushed on the router
    and the cache, in particular the cached session, stays as it was. *)
Theorem login_without_user_is_an_error
    (getDashboardByRole : Role -> string) (result : AuthResponse) (st : ClientState) :
  user result = None ->
  login_mutationFn (Js.Resolved result)
  = Js.Rejected (Js.Error "Invalid user data received")
  /\ loginMutation getDashboardByRole (Js.Resolved result) st
     = mkClientState (cache st) (pushed st)
         (toasts st ++ [mkToast Failure (Some "Invalid user data received")]).
Proof.
  intros Hu. unfold loginMutation, login_mutationFn. rewrite Hu.
  split; reflexivity.
Qed.

Lemma login_without_user_is_an_error_witness :
  loginMutation example_dashboards
    (Js.Resolved (mkAuthResponse None (Some "token") None (Some "ok")))
    (mkClientState {[ SESSION := mkQuery DataNull false ]} ["/auth/login"] [])
  = mkClientState {[ SESSION := mkQuery DataNull false ]} ["/auth/login"]
      [mkToast Failure (Some "Invalid user data received")].
Proof.
  exact (proj2 (login_without_user_is_an_error example_dashboards
                  (mkAuthResponse None (Some "token") None (Some "ok"))
                  (mkClientState {[ SESSION := mkQuery DataNull false ]}
                     ["/auth/login"] [])
                  eq_refl)).
Defined.

(** *** Requests that only send something: OTP, magic link, password reset *)

Lemma invalidateQueries_lookup (filter : QueryKey) (st : ClientState) (key : QueryKey) :
  cache (queryClient.invalidateQueries filter st) !! key
  = (fun q => if queryClient.partialMatchKey filter key
              then mkQuery (data q) true else q) <$> (cache st !! key).
Proof.
  unfold queryClient.invalidateQueries. cbn [cache].
  rewrite map_lookup_imap. destruct (cache st !! key); reflexivity.
Qed.

Lemma invalidateQueries_pushed (filter : QueryKey) (st : ClientState) :
  pushed (queryClient.invalidateQueries filter st) = pushed st.
Proof. reflexivity. Qed.

Lemma invalidateQueries_toasts (filter : QueryKey) (st : ClientState) :
  toasts (queryClient.invalidateQueries filter st) = toasts st.
Proof. reflexivity. Qed.

Lemma requestOTP_success_lookup (response : MessageResponse) (st : ClientState)
    (key : QueryKey) :
  cache (requestOTP (Js.Resolved response) st) !! key
  = (fun q => if queryClient.partialMatchKey SESSION key
              then mkQuery (data q) true else q) <$> (cache st !! key).
Proof.
  exact (invalidateQueries_lookup SESSION
           (toast.success (Some (m_message response)) st) key).
Qed.

(** C5, as the specification words it, does not hold for [requestOTP]: its
    success handler invalidates the session query, so a fresh cached
    session is stale afterwards and the cache is not what it was. *)
Lemma requestOTP_success_invalidates_session :
  ~ (forall (response : MessageResponse) (st : ClientState),
        cache (requestOTP (Js.Resolved response) st) = cache st).
Proof.
  intros H.
  specialize (H (mkMessageResponse "OTP sent")
                (mkClientState {[ SESSION := mkQuery DataNull false ]} [] [])).
  apply (f_equal (fun m => isInvalidated <$> (m !! SESSION))) in H.
  rewrite requestOTP_success_lookup in H. cbn [cache] in H.
  rewrite lookup_singleton_eq in H. simpl in H. discriminate H.
Qed.

(** C5 (amended): a successful [requestMagicLink] or [forgotPassword] shows
    the message of the server (a fixed text when the response has none),
    pushes nothing on the router and leaves the cache as it is.  A
    successful [requestOTP] shows the message of the server, pushes
    nothing and writes no data into the cache, but it does invalidate the
    session query: every cached query whose key starts with [session] is
    marked stale. *)
Theorem request_operations_on_success (st : ClientState) :
  (forall response : MessageResponse,
     toasts (requestOTP (Js.Resolved response) st)
     = toasts st ++ [mkToast Success (Some (m_message response))]
     /\ pushed (requestOTP (Js.Resolved response) st) = pushed st
     /\ (forall key,
           data <$> (cache (requestOTP (Js.Resolved response) st) !! key)
           = data <$> (cache st !! key))
     /\ (forall key q,
           cache st !! key = Some q ->
           isInvalidated <$> (cache (requestOTP (Js.Resolved response) st) !! key)
           = Some (queryClient.partialMatchKey SESSION key || isInvalidated q))
     /\ (forall q,
           cache st !! SESSION = Some q ->
           cache (requestOTP (Js.Resolved response) st) !! SESSION
           = Some (mkQuery (data q) true)))
  /\ (forall (response : AuthResponse) (shown : string),
        (message response = Some shown /\ shown <> "")
        \/ ((message response = None \/ message response = Some "")
            /\ shown = "Magic link sent to your email") ->
        requestMagicLink (Js.Resolved response) st
        = mkClientState (cache st) (pushed st)
            (toasts st ++ [mkToast Success (Some shown)]))
  /\ (forall (response : AuthResponse) (shown : string),
        (message response = Some shown /\ shown <> "")
        \/ ((message response = None \/ message response = Some "")
            /\ shown = "Password reset instructions sent to your email") ->
        forgotPassword (Js.Resolved response) st
        = mkClientState (cache st) (pushed st)
            (toasts st ++ [mkToast Success (Some shown)])).
Proof.
  split; [|split].
  - intros response.
    split; [reflexivity|]. split; [reflexivity|].
    split; [|split].
    + intros key. rewrite requestOTP_success_lookup.
      destruct (cache st !! key) as [q|]; [|reflexivity].
      destruct (queryClient.partialMatchKey SESSION key); reflexivity.
    + intros key q Hq. rewrite requestOTP_success_lookup, Hq.
      destruct (queryClient.partialMatchKey SESSION key); reflexivity.
    + intros q Hq. rewrite requestOTP_success_lookup, Hq. reflexivity.
  - intros response shown [[Hm Hne] | [[Hm | Hm] ->]];
      unfold requestMagicLink, useMutation, toast.success; rewrite Hm;
      try reflexivity.
    destruct shown; [congruence | reflexivity].
  - intros response shown [[Hm Hne] | [[Hm | Hm] ->]];
      unfold forgotPassword, useMutation, toast.success; rewrite Hm;
      try reflexivity.
    destruct shown; [congruence | reflexivity].
Qed.

Lemma request_operations_on_success_witness :
  cache (requestOTP (Js.Resolved (mkMessageResponse "OTP sent"))
           (mkClientState {[ SESSION := mkQuery DataNull false ]} [] [])) !! SESSION
  = Some (mkQuery DataNull true)
  /\ requestMagicLink
       (Js.Resolved (mkAuthResponse None None None (Some "Check your inbox")))
       (mkClientState {[ SESSION := mkQuery DataNull false ]} [] [])
     = mkClientState {[ SESSION := mkQuery DataNull false ]} []
         [mkToast Success (Some "Check your inbox")]
  /\ forgotPassword (Js.Resolved (mkAuthResponse None None None None))
       (mkClientState {[ SESSION := mkQuery DataNull false ]} [] [])
     = mkClientState {[ SESSION := mkQuery DataNull false ]} []
         [mkToast Success (Some "Password reset instructions sent to your email")].
Proof.
  pose proof (request_operations_on_success
                (mkClientState {[ SESSION := mkQuery DataNull false ]} [] []))
    as (Hotp & Hmagic & Hforgot).
  split; [|split].
  - destruct (Hotp (mkMessageResponse "OTP sent")) as (_ & _ & _ & _ & Hsession).
    apply (Hsession (mkQuery DataNull false)). apply lookup_singleton_eq.
  - apply Hmagic. left. split; [reflexivity | discriminate].
  - apply Hforgot. right. split; [left; reflexivity | reflexivity].
Defined.

(** *** Failures *)

(** The mutations of the hook whose remote action can fail (the session
    query, which has no handlers, is [sessionQuery]). *)
Inductive Operation : Type :=
| Login
| GoogleLogin
| Register
| Logout
| RegisterWithClinic
| VerifyOTP
| RequestOTP
| ForgotPassword
| ResetPassword
| SocialLogin
| RequestMagicLink
| VerifyMagicLink
| ChangePassword
| TerminateAllSessions
| CheckOTPStatus
| InvalidateOTP
| VerifyEmail
| FacebookLogin.

(** The operation run with a remote action that throws [e]. *)
Definition run_rejected (getDashboardByRole : Role -> string)
    (op : Operation) (e : Js.Thrown) : Eff :=
  match op with
  | Login => loginMutation getDashboardByRole (Js.Rejected e)
  | GoogleLogin => googleLogin getDashboardByRole (Js.Rejected e)
  | Register => registerMutation (A := unit) (Js.Rejected e)
  | Logout => logoutMutation (A := unit) (Js.Rejected e)
  | RegisterWithClinic => registerWithClinic getDashboardByRole (Js.Rejected e)
  | VerifyOTP => verifyOTP getDashboardByRole (Js.Rejected e)
  | RequestOTP => requestOTP (Js.Rejected e)
  | ForgotPassword => forgotPassword (Js.Rejected e)
  | ResetPassword => resetPassword (Js.Rejected e)
  | SocialLogin => socialLogin getDashboardByRole (Js.Rejected e)
  | RequestMagicLink => requestMagicLink (Js.Rejected e)
  | VerifyMagicLink => verifyMagicLink getDashboardByRole (Js.Rejected e)
  | ChangePassword => changePassword (Js.Rejected e)
  | TerminateAllSessions => terminateAllSessionsMutation (A := unit) (Js.Rejected e)
  | CheckOTPStatus => checkOTPStatus (Js.Rejected e)
  | InvalidateOTP => invalidateOTP (Js.Rejected e)
  | VerifyEmail => verifyEmail (Js.Rejected e)
  | FacebookLogin => facebookLogin getDashboardByRole (Js.Rejected e)
  end.

(** A state with a cached session and a cached query of another kind. *)
Definition example_state : ClientState :=
  mkClientState
    (<[ ["appointments"] := mkQuery (DataOther (Js.Str "[]")) false ]>
       {[ SESSION := mkQuery (DataOther (Js.Str "cached")) false ]})
    ["/patient/dashboard"] [].





(** ** The schemas *)

(** *** Strings and their checks *)

Section StringChecks.

Variable isEmail : string -> bool.

Lemma string_issues (checks : list z.Check) (s : string) :
  z.issues (z.string isEmail checks (Js.Str s))
  = List.map (z.check_issue s)
      (List.filter (fun c => negb (z.check_passes isEmail s c)) checks).
Proof.
  unfold z.string, z.issues.
  destruct (List.filter _ checks); reflexivity.
Qed.

Lemma string_status (checks : list z.Check) (s : string) :
  fst (z.string isEmail checks (Js.Str s))
  = if forallb (z.check_passes isEmail s) checks then z.OK s else z.DIRTY s.
Proof.
  unfold z.string.
  induction checks as [|c checks IH]; [reflexivity|].
  cbn [List.filter forallb].
  destruct (z.check_passes isEmail s c); cbn [negb andb]; [exact IH | reflexivity].
Qed.

Lemma string_not_aborted (checks : list z.Check) (s : string) :
  z.aborted (z.string isEmail checks (Js.Str s)) = false.
Proof.
  unfold z.aborted. rewrite string_status.
  destruct (forallb _ checks); reflexivity.
Qed.

Lemma string_safeParse (checks : list z.Check) (s : string) :
  z.safeParse (z.string isEmail checks (Js.Str s))
  = if forallb (z.check_passes isEmail s) checks
    then z.success s
    else z.failure (z.issues (z.string isEmail checks (Js.Str s))).
Proof.
  pose proof (string_status checks s) as Hst.
  unfold z.safeParse, z.issues.
  destruct (z.string isEmail checks (Js.Str s)) as [st iss].
  cbn [fst snd] in *. subst st.
  destruct (forallb _ checks); reflexivity.
Qed.

(** A failing check leaves its issue, a passing check does not, as long as
    no other check of the chain raises the same issue. *)
Lemma string_issue_iff (checks : list z.Check) (s : string) (c : z.Check) :
  List.In c checks ->
  (forall c', List.In c' checks -> z.check_issue s c' = z.check_issue s c -> c' = c) ->
  List.In (z.check_issue s c) (z.issues (z.string isEmail checks (Js.Str s)))
  <-> z.check_passes isEmail s c = false.
Proof.
  intros Hin Hinj. rewrite string_issues, in_map_iff. split.
  - intros (c' & Heq & Hc'). apply filter_In in Hc' as [Hc' Hfail].
    apply Hinj in Heq; [|exact Hc']. subst c'.
    destruct (z.check_passes isEmail s c); [discriminate | reflexivity].
  - intros Hfail. exists c. split; [reflexivity|].
    apply filter_In. rewrite Hfail. split; [exact Hin | reflexivity].
Qed.

End StringChecks.

(** *** Character classes *)

Definition uppercase_letters : list ascii :=
  list_ascii_of_string "ABCDEFGHIJKLMNOPQRSTUVWXYZ".
Definition lowercase_letters : list ascii :=
  list_ascii_of_string "abcdefghijklmnopqrstuvwxyz".
Definition digits : list ascii :=
  list_ascii_of_string "0123456789".

(** Some character of [s] is in the alphabet. *)
Definition has_char_in (alphabet : list ascii) (s : string) : Prop :=
  exists c, List.In c (list_ascii_of_string s) /\ List.In c alphabet.

(** Some character of [s] is not in the alphabet. *)
Definition has_char_outside (alphabet : list ascii) (s : string) : Prop :=
  exists c, List.In c (list_ascii_of_string s) /\ ~ List.In c alphabet.

Lemma existsb_eqb_In (alphabet : list ascii) (c : ascii) :
  existsb (Ascii.eqb c) alphabet = true <-> List.In c alphabet.
Proof.
  rewrite existsb_exists. split.
  - intros (x & Hx & Heq). apply Ascii.eqb_eq in Heq. subst. exact Hx.
  - intros H. exists c. split; [exact H | apply Ascii.eqb_refl].
Qed.

Lemma in_ranges_upper (c : ascii) :
  z.in_ranges [("A", "Z")%char] c = existsb (Ascii.eqb c) uppercase_letters.
Proof. destruct c as [[] [] [] [] [] [] [] []]; vm_compute; reflexivity. Qed.

Lemma in_ranges_lower (c : ascii) :
  z.in_ranges [("a", "z")%char] c = existsb (Ascii.eqb c) lowercase_letters.
Proof. destruct c as [[] [] [] [] [] [] [] []]; vm_compute; reflexivity. Qed.

Lemma in_ranges_digit (c : ascii) :
  z.in_ranges [("0", "9")%char] c = existsb (Ascii.eqb c) digits.
Proof. destruct c as [[] [] [] [] [] [] [] []]; vm_compute; reflexivity. Qed.

Lemma in_ranges_alphanumeric (c : ascii) :
  z.in_ranges [("A", "Z")%char; ("a", "z")%char; ("0", "9")%char] c
  = existsb (Ascii.eqb c) (uppercase_letters ++ lowercase_letters ++ digits).
Proof. destruct c as [[] [] [] [] [] [] [] []]; vm_compute; reflexivity. Qed.

Lemma test_class_iff (ranges : list (ascii * ascii)) (alphabet : list ascii) (s : string) :
  (forall c, z.in_ranges ranges c = existsb (Ascii.eqb c) alphabet) ->
  z.test (z.Class ranges) s = true <-> has_char_in alphabet s.
Proof.
  intros Hranges. unfold z.test, has_char_in. rewrite existsb_exists.
  split; intros (c & Hc & Hin); exists c; (split; [exact Hc|]).
  - apply existsb_eqb_In. rewrite <- Hranges. exact Hin.
  - rewrite Hranges. apply existsb_eqb_In. exact Hin.
Qed.

Lemma test_negclass_iff (ranges : list (ascii * ascii)) (alphabet : list ascii) (s : string) :
  (forall c, z.in_ranges ranges c = existsb (Ascii.eqb c) alphabet) ->
  z.test (z.NegClass ranges) s = true <-> has_char_outside alphabet s.
Proof.
  intros Hranges. unfold z.test, has_char_outside. rewrite existsb_exists.
  split; intros (c & Hc & Hin); exists c; (split; [exact Hc|]).
  - rewrite Hranges in Hin. rewrite <- existsb_eqb_In.
    destruct (existsb (Ascii.eqb c) alphabet); [discriminate | congruence].
  - rewrite Hranges. rewrite <- existsb_eqb_In in Hin.
    destruct (existsb (Ascii.eqb c) alphabet); [congruence | reflexivity].
Qed.

(** *** The strong password *)

(** The chain of checks the registration password and the new password of
    a password change both spell out. *)
Definition strong_password_checks : list z.Check :=
  [z.min 8 "Password must be at least 8 characters";
   z.regex (z.Class [("A", "Z")%char]) "Password must contain at least one uppercase letter";
   z.regex (z.Class [("a", "z")%char]) "Password must contain at least one lowercase letter";
   z.regex (z.Class [("0", "9")%char]) "Password must contain at least one number";
   z.regex (z.NegClass [("A", "Z")%char; ("a", "z")%char; ("0", "9")%char])
     "Password must contain at least one special character"].

Lemma register_password_checks (isEmail : string -> bool) :
  register_password isEmail = z.string isEmail strong_password_checks.
Proof. reflexivity. Qed.

Lemma changePassword_newPassword_checks (isEmail : string -> bool) :
  changePassword_newPassword isEmail = z.string isEmail strong_password_checks.
Proof. reflexivity. Qed.

Lemma strong_password_issues_distinct (s : string) (c c' : z.Check) :
  List.In c strong_password_checks ->
  List.In c' strong_password_checks ->
  z.check_issue s c' = z.check_issue s c -> c' = c.
Proof.
  unfold strong_password_checks. cbn [List.In].
  intros Hc Hc' Heq.
  repeat (destruct Hc as [<-|Hc]); try contradiction;
    repeat (destruct Hc' as [<-|Hc']); try contradiction;
    cbn [z.check_issue] in Heq; first [reflexivity | discriminate Heq].
Qed.

Lemma bool_false_iff_not (b : bool) (P : Prop) :
  (b = true <-> P) -> (b = false <-> ~ P).
Proof. intros H. destruct b; split; intros; intuition congruence. Qed.

Ltac strong_password_issue :=
  match goal with
  | |- _ <-> List.In (z.mkIssue [] ?code (Some ?msg)) (z.issues (z.string ?e _ (Js.Str ?s))) =>
      match eval cbv [strong_password_checks] in strong_password_checks with
      | context [?c] =>
          match c with
          | z.min _ msg => idtac
          | z.regex _ msg => idtac
          end;
          change (z.mkIssue [] code (Some msg)) with (z.check_issue s c);
          rewrite (string_issue_iff e strong_password_checks s c);
          [ | unfold strong_password_checks; cbn [List.In]; tauto
            | intros c' Hc'; apply strong_password_issues_distinct;
              [unfold strong_password_checks; cbn [List.In]; tauto | exact Hc'] ]
      end
  end.

Lemma strong_password_characterised (isEmail : string -> bool) (s : string) :
  (z.safeParse (z.string isEmail strong_password_checks (Js.Str s)) = z.success s
   <-> (8 <= String.length s)%nat
       /\ has_char_in uppercase_letters s
       /\ has_char_in lowercase_letters s
       /\ has_char_in digits s
       /\ has_char_outside (uppercase_letters ++ lowercase_letters ++ digits) s)
  /\ (z.safeParse (z.string isEmail strong_password_checks (Js.Str s)) = z.success s
      \/ z.safeParse (z.string isEmail strong_password_checks (Js.Str s))
         = z.failure (z.issues (z.string isEmail strong_password_checks (Js.Str s))))
  /\ ((String.length s < 8)%nat
      <-> List.In (z.mkIssue [] z.too_small (Some "Password must be at least 8 characters"))
            (z.issues (z.string isEmail strong_password_checks (Js.Str s))))
  /\ (~ has_char_in uppercase_letters s
      <-> List.In (z.mkIssue [] z.invalid_string
                     (Some "Password must contain at least one uppercase letter"))
            (z.issues (z.string isEmail strong_password_checks (Js.Str s))))
  /\ (~ has_char_in lowercase_letters s
      <-> List.In (z.mkIssue [] z.invalid_string
                     (Some "Password must contain at least one lowercase letter"))
            (z.issues (z.string isEmail strong_password_checks (Js.Str s))))
  /\ (~ has_char_in digits s
      <-> List.In (z.mkIssue [] z.invalid_string
                     (Some "Password must contain at least one number"))
            (z.issues (z.string isEmail strong_password_checks (Js.Str s))))
  /\ (~ has_char_outside (uppercase_letters ++ lowercase_letters ++ digits) s
      <-> List.In (z.mkIssue [] z.invalid_string
                     (Some "Password must contain at least one special character"))
            (z.issues (z.string isEmail strong_password_checks (Js.Str s)))).
Proof.
  pose proof (test_class_iff _ _ s in_ranges_upper) as Hupper.
  pose proof (test_class_iff _ _ s in_ranges_lower) as Hlower.
  pose proof (test_class_iff _ _ s in_ranges_digit) as Hdigit.
  pose proof (test_negclass_iff _ _ s in_ranges_alphanumeric) as Hspecial.
  split; [|split; [|split; [|split; [|split; [|split]]]]].
  - rewrite string_safeParse.
    unfold strong_password_checks. cbn [forallb z.check_passes].
    rewrite <- Hupper, <- Hlower, <- Hdigit, <- Hspecial, <- Nat.leb_le.
    destruct (8 <=? String.length s)%nat, (z.test _ s), (z.test _ s), (z.test _ s),
      (z.test _ s); cbn [andb]; split; intros H; try discriminate H;
      try (repeat split; reflexivity); try reflexivity;
      destruct H as (? & ? & ? & ? & ?); discriminate.
  - rewrite string_safeParse. destruct (forallb _ _); [left | right]; reflexivity.
  - strong_password_issue. cbn [z.check_passes]. symmetry. apply Nat.leb_gt.
  - strong_password_issue. cbn [z.check_passes].
    symmetry. apply bool_false_iff_not. exact Hupper.
  - strong_password_issue. cbn [z.check_passes].
    symmetry. apply bool_false_iff_not. exact Hlower.
  - strong_password_issue. cbn [z.check_passes].
    symmetry. apply bool_false_iff_not. exact Hdigit.
  - strong_password_issue. cbn [z.check_passes].
    symmetry. apply bool_false_iff_not. exact Hspecial.
Qed.

(** The five messages of the strong password. *)
Definition strong_password_messages : list string :=
  ["Password must be at least 8 characters";
   "Password must contain at least one uppercase letter";
   "Password must contain at least one lowercase letter";
   "Password must contain at least one number";
   "Password must contain at least one special character"].

(** What it is for a schema of strings to be the strong-password
    validator: it accepts exactly the strings that are at least 8 long and
    have an uppercase letter, a lowercase letter, a digit and a character
    that is none of these; it rejects every other string; and each
    condition that fails leaves its own message among the issues. *)
Definition strong_password_validator (schema : z.Schema string) : Prop :=
  forall s : string,
    (z.safeParse (schema (Js.Str s)) = z.success s
     <-> (8 <= String.length s)%nat
         /\ has_char_in uppercase_letters s
         /\ has_char_in lowercase_letters s
         /\ has_char_in digits s
         /\ has_char_outside (uppercase_letters ++ lowercase_letters ++ digits) s)
    /\ (z.safeParse (schema (Js.Str s)) = z.success s
        \/ z.safeParse (schema (Js.Str s)) = z.failure (z.issues (schema (Js.Str s))))
    /\ ((String.length s < 8)%nat
        <-> List.In (z.mkIssue [] z.too_small
                       (Some "Password must be at least 8 characters"))
              (z.issues (schema (Js.Str s))))
    /\ (~ has_char_in uppercase_letters s
        <-> List.In (z.mkIssue [] z.invalid_string
                       (Some "Password must contain at least one uppercase letter"))
              (z.issues (schema (Js.Str s))))
    /\ (~ has_char_in lowercase_letters s
        <-> List.In (z.mkIssue [] z.invalid_string
                       (Some "Password must contain at least one lowercase letter"))
              (z.issues (schema (Js.Str s))))
    /\ (~ has_char_in digits s
        <-> List.In (z.mkIssue [] z.invalid_string
                       (Some "Password must contain at least one number"))
              (z.issues (schema (Js.Str s))))
    /\ (~ has_char_outside (uppercase_letters ++ lowercase_letters ++ digits) s
        <-> List.In (z.mkIssue [] z.invalid_string
                       (Some "Password must contain at least one special character"))
              (z.issues (schema (Js.Str s)))).

(** C4: the password of the registration schema and the new password of
    the change-password schema are strong-password validators: a string is
    accepted if and only if it is at least 8 long and has an uppercase
    letter, a lowercase letter, a digit and a non-alphanumeric character;
    each of the five conditions, when it fails, leaves its own message,
    and the five messages are pairwise distinct. *)
Theorem strong_password_accepts_iff_five_conditions (isEmail : string -> bool) :
  strong_password_validator (register_password isEmail)
  /\ strong_password_validator (changePassword_newPassword isEmail)
  /\ List.NoDup strong_password_messages.
Proof.
  split; [|split].
  - intros s. rewrite register_password_checks.
    apply strong_password_characterised.
  - intros s. rewrite changePassword_newPassword_checks.
    apply strong_password_characterised.
  - unfold strong_password_messages.
    repeat (apply List.NoDup_cons; [cbn [List.In]; intuition discriminate|]).
    apply List.NoDup_nil.
Qed.

Lemma strong_password_accepts_iff_five_conditions_witness :
  z.safeParse (register_password example_isEmail (Js.Str "Abcdef1!"))
  = z.success "Abcdef1!"
  /\ List.In (z.mkIssue [] z.invalid_string
                (Some "Password must contain at least one uppercase letter"))
       (z.issues (changePassword_newPassword example_isEmail (Js.Str "abcdef1!"))).
Proof.
  destruct (strong_password_accepts_iff_five_conditions example_isEmail)
    as (Hregister & Hchange & _).
  split.
  - apply (proj1 (Hregister "Abcdef1!")).
    split; [vm_compute; lia|].
    split; [exists "A"%char; split; vm_compute; tauto|].
    split; [exists "b"%char; split; vm_compute; tauto|].
    split; [exists "1"%char; split; vm_compute; tauto|].
    exists "!"%char. split; [vm_compute; tauto|].
    vm_compute. intuition discriminate.
  - destruct (Hchange "abcdef1!") as (_ & _ & _ & Hupper & _).
    apply (proj1 Hupper).
    intros (c & Hc & Hin). vm_compute in Hc, Hin.
    repeat (destruct Hc as [<- | Hc]; [intuition discriminate|]). exact Hc.
Defined.

(** *** Objects and refinements *)

(** The value a parse produced, if it was not aborted. *)
Definition value_of {A : Type} (r : z.Return A) : option A :=
  match fst r with
  | z.OK a | z.DIRTY a => Some a
  | z.INVALID => None
  end.

Lemma safeParse_cases {A : Type} (r : z.Return A) :
  (exists a, fst r = z.OK a /\ z.safeParse r = z.success a)
  \/ ((forall a, fst r <> z.OK a) /\ z.safeParse r = z.failure (z.issues r)).
Proof.
  destruct r as [[a|a|] iss]; [left; eauto | right | right];
    (split; [intros a'; discriminate | reflexivity]).
Qed.

Lemma safeParse_success {A : Type} (r : z.Return A) (a : A) :
  z.safeParse r = z.success a <-> fst r = z.OK a.
Proof.
  destruct r as [[a'|a'|] iss]; cbn; split; intros H; congruence.
Qed.

Lemma safeParse_failure {A : Type} (r : z.Return A) (iss : list z.Issue) :
  z.safeParse r = z.failure iss -> iss = z.issues r /\ forall a, fst r <> z.OK a.
Proof.
  destruct r as [[a'|a'|] iss']; cbn; intros H; try discriminate H;
    (split; [congruence | intros a; discriminate]).
Qed.

Lemma and_field_issues {A B : Type} (rf : z.Return (A -> B)) (ra : z.Return A) :
  z.issues (rf <*> ra) = z.issues rf ++ z.issues ra.
Proof. reflexivity. Qed.

Lemma and_field_OK_inv {A B : Type} (rf : z.Return (A -> B)) (ra : z.Return A) (b : B) :
  fst (rf <*> ra) = z.OK b ->
  exists f a, fst rf = z.OK f /\ fst ra = z.OK a /\ b = f a.
Proof.
  unfold z.and_field. cbn [fst].
  destruct (fst rf) as [f|f|], (fst ra) as [a|a|]; intros H; try discriminate H.
  exists f, a. repeat split. congruence.
Qed.

Lemma and_field_value {A B : Type} (rf : z.Return (A -> B)) (ra : z.Return A) :
  value_of (rf <*> ra)
  = match value_of rf, value_of ra with
    | Some f, Some a => Some (f a)
    | _, _ => None
    end.
Proof.
  unfold value_of, z.and_field. cbn [fst].
  destruct (fst rf) as [f|f|], (fst ra) as [a|a|]; reflexivity.
Qed.

Lemma and_field_value_inv {A B : Type} (rf : z.Return (A -> B)) (ra : z.Return A) (b : B) :
  value_of (rf <*> ra) = Some b ->
  exists f a, value_of rf = Some f /\ value_of ra = Some a /\ b = f a.
Proof.
  rewrite and_field_value.
  destruct (value_of rf) as [f|], (value_of ra) as [a|]; intros H; try discriminate H.
  exists f, a. repeat split. congruence.
Qed.

Lemma object_OK_inv {A : Type} (build a : A) :
  fst (z.object build) = z.OK a -> a = build.
Proof. cbn. congruence. Qed.

Lemma object_value_inv {A : Type} (build a : A) :
  value_of (z.object build) = Some a -> a = build.
Proof. cbn. congruence. Qed.

Lemma field_status {A : Type} (key : string) (schema : z.Schema A)
    (input : gmap string Js.Value) :
  fst (z.field key schema input) = fst (schema (z.get input key)).
Proof. unfold z.field. destruct (schema (z.get input key)); reflexivity. Qed.

Lemma field_value {A : Type} (key : string) (schema : z.Schema A)
    (input : gmap string Js.Value) :
  value_of (z.field key schema input) = value_of (schema (z.get input key)).
Proof. unfold value_of. rewrite field_status. reflexivity. Qed.

Lemma field_issues {A : Type} (key : string) (schema : z.Schema A)
    (input : gmap string Js.Value) :
  z.issues (z.field key schema input)
  = List.map (fun i => z.mkIssue (key :: z.path i) (z.code i) (z.message i))
      (z.issues (schema (z.get input key))).
Proof. unfold z.field. destruct (schema (z.get input key)); reflexivity. Qed.

(** A refinement that fails on the parsed value rejects, with its issue
    last among the issues. *)
Lemma refine_fails {A : Type} (r : z.Return A) (pred : A -> bool)
    (msg : string) (at_path : list string) (a : A) :
  value_of r = Some a -> pred a = false ->
  z.safeParse (z.refine r pred msg at_path)
  = z.failure (z.issues r ++ [z.mkIssue at_path z.custom (Some msg)]).
Proof.
  destruct r as [[a'|a'|] iss]; cbn; intros Ha Hp; try discriminate Ha;
    injection Ha as ->; rewrite Hp; reflexivity.
Qed.

(** After an abort the refinement is not run. *)
Lemma refine_aborted {A : Type} (r : z.Return A) (pred : A -> bool)
    (msg : string) (at_path : list string) :
  value_of r = None -> z.refine r pred msg at_path = r.
Proof.
  destruct r as [[a'|a'|] iss]; cbn; intros Ha; try discriminate Ha. reflexivity.
Qed.

Lemma refine_OK_inv {A : Type} (r : z.Return A) (pred : A -> bool)
    (msg : string) (at_path : list string) (a : A) :
  fst (z.refine r pred msg at_path) = z.OK a -> fst r = z.OK a /\ pred a = true.
Proof.
  destruct r as [[a'|a'|] iss]; cbn; try discriminate;
    destruct (pred a') eqn:Hp; cbn; intros H; try discriminate H.
  injection H as <-. split; [reflexivity | exact Hp].
Qed.

Lemma refine_issues_incl {A : Type} (r : z.Return A) (pred : A -> bool)
    (msg : string) (at_path : list string) (i : z.Issue) :
  List.In i (z.issues r) -> List.In i (z.issues (z.refine r pred msg at_path)).
Proof.
  destruct r as [[a'|a'|] iss]; cbn; try tauto;
    destruct (pred a'); cbn; try tauto; intros H; apply in_or_app; tauto.
Qed.

Lemma refine_fails_issues {A : Type} (r : z.Return A) (pred : A -> bool)
    (msg : string) (at_path : list string) (a : A) :
  value_of r = Some a -> pred a = false ->
  z.issues (z.refine r pred msg at_path)
  = z.issues r ++ [z.mkIssue at_path z.custom (Some msg)].
Proof.
  destruct r as [[a'|a'|] iss]; cbn; intros Ha Hp; try discriminate Ha;
    injection Ha as ->; rewrite Hp; reflexivity.
Qed.

Lemma aborted_value {A : Type} (r : z.Return A) :
  z.aborted r = false <-> exists a, value_of r = Some a.
Proof.
  unfold z.aborted, value_of. destruct (fst r); split; intros H;
    try discriminate H; try reflexivity; eauto.
  destruct H as [a H]. discriminate H.
Qed.

(** A refinement comparing two keys that differ always rejects: either the
    object was aborted, or the refinement fails. *)
Lemma refine_rejects {A : Type} (r : z.Return A) (pred : A -> bool)
    (msg : string) (at_path : list string) :
  (forall a, value_of r = Some a -> pred a = false) ->
  exists iss, z.safeParse (z.refine r pred msg at_path) = z.failure iss.
Proof.
  intros Hpred. destruct (value_of r) as [a|] eqn:Hv.
  - eexists. apply (refine_fails r pred msg at_path a Hv). auto.
  - rewrite refine_aborted by exact Hv.
    unfold value_of in Hv. destruct r as [[a|a|] iss]; try discriminate Hv.
    eexists. reflexivity.
Qed.

Section SchemaFacts.

Variable isEmail : string -> bool.

Lemma string_value (checks : list z.Check) (s : string) :
  value_of (z.string isEmail checks (Js.Str s)) = Some s.
Proof.
  unfold value_of. rewrite string_status. destruct (forallb _ checks); reflexivity.
Qed.

Lemma string_value_inv (checks : list z.Check) (v : Js.Value) (s : string) :
  value_of (z.string isEmail checks v) = Some s -> v = Js.Str s.
Proof.
  destruct v as [| |b|n| |s']; try discriminate.
  rewrite string_value. congruence.
Qed.

(** The value of an object is made of the values of its keys. *)
Ltac object_values H :=
  repeat (apply and_field_value_inv in H as (? & ? & H & ? & ?));
  apply object_value_inv in H; subst.

Lemma registerObject_passwords (input : gmap string Js.Value) (data : RegisterFormData) :
  value_of (registerObject isEmail input) = Some data ->
  z.get input "password" = Js.Str (reg_password data)
  /\ z.get input "confirmPassword" = Js.Str (reg_confirmPassword data).
Proof.
  unfold registerObject. intros H. object_values H.
  cbn [reg_password reg_confirmPassword].
  repeat match goal with
         | H : value_of (z.field _ _ _) = Some _ |- _ => rewrite field_value in H
         end.
  split; eapply string_value_inv; eassumption.
Qed.

Lemma resetPasswordObject_passwords (input : gmap string Js.Value)
    (data : ResetPasswordFormData) :
  value_of (resetPasswordObject isEmail input) = Some data ->
  z.get input "password" = Js.Str (reset_password data)
  /\ z.get input "confirmPassword" = Js.Str (reset_confirmPassword data).
Proof.
  unfold resetPasswordObject. intros H. object_values H.
  cbn [reset_password reset_confirmPassword].
  repeat match goal with
         | H : value_of (z.field _ _ _) = Some _ |- _ => rewrite field_value in H
         end.
  split; eapply string_value_inv; eassumption.
Qed.

Lemma changePasswordObject_passwords (input : gmap string Js.Value)
    (data : ChangePasswordFormData) :
  value_of (changePasswordObject isEmail input) = Some data ->
  z.get input "newPassword" = Js.Str (change_newPassword data)
  /\ z.get input "confirmPassword" = Js.Str (change_confirmPassword data).
Proof.
  unfold changePasswordObject. intros H. object_values H.
  cbn [change_newPassword change_confirmPassword].
  repeat match goal with
         | H : value_of (z.field _ _ _) = Some _ |- _ => rewrite field_value in H
         end.
  split; eapply string_value_inv; eassumption.
Qed.

End SchemaFacts.

(** *** Password and confirmation *)

(** The issue of the refinement of the three schemas. *)
Definition mismatch : z.Issue :=
  z.mkIssue ["confirmPassword"] z.custom (Some "Passwords don't match").

(** A registration form filled in completely and correctly. *)
Definition example_registration : gmap string Js.Value :=
  <["email" := Js.Str "jo@example.com"]>
  (<["password" := Js.Str "Abcdef1!"]>
  (<["confirmPassword" := Js.Str "Abcdef1!"]>
  (<["firstName" := Js.Str "Jo"]>
  (<["lastName" := Js.Str "Li"]>
  (<["phone" := Js.Str "0123456789"]>
  (<["terms" := Js.Bool true]> ∅)))))).

(** Every key of the registration form other than the two passwords has a
    value of the type its schema expects: strings where strings are
    expected, a listed value or nothing for [gender] and [role], a number
    or nothing for [age], a boolean for [terms]. *)
Definition well_typed_registration (input : gmap string Js.Value) : Prop :=
  (exists s, z.get input "email" = Js.Str s)
  /\ (exists s, z.get input "firstName" = Js.Str s)
  /\ (exists s, z.get input "lastName" = Js.Str s)
  /\ (exists s, z.get input "phone" = Js.Str s)
  /\ (z.get input "gender" = Js.Undefined
      \/ exists g, List.In g ["MALE"; "FEMALE"; "OTHER"] /\ z.get input "gender" = Js.Str g)
  /\ (z.get input "role" = Js.Undefined
      \/ exists r : Role, z.get input "role" = Js.Str (Role_value r))
  /\ (z.get input "age" = Js.Undefined \/ exists n, z.get input "age" = Js.Num n)
  /\ (exists b, z.get input "terms" = Js.Bool b).

Section Mismatch.

Variable isEmail : string -> bool.

Lemma registerObject_well_typed (input : gmap string Js.Value) (p c : string) :
  well_typed_registration input ->
  z.get input "password" = Js.Str p ->
  z.get input "confirmPassword" = Js.Str c ->
  exists data,
    value_of (registerObject isEmail input) = Some data
    /\ reg_password data = p /\ reg_confirmPassword data = c.
Proof.
  intros ([e He] & [f Hf] & [l Hl] & [ph Hph] & Hgender & Hrole & Hage & [b Hb]) Hp Hc.
  unfold registerObject.
  rewrite !and_field_value, !field_value, He, Hp, Hc, Hf, Hl, Hph, Hb.
  unfold register_password. rewrite !string_value.
  destruct Hgender as [-> | (g & Hg & ->)];
    [|cbn [List.In] in Hg; destruct Hg as [<- | [<- | [<- | []]]]];
    (destruct Hrole as [-> | [r ->]]; [|destruct r]);
    (destruct Hage as [-> | [n ->]]);
    destruct b; eexists; (split; [reflexivity | split; reflexivity]).
Qed.

Lemma resetPasswordObject_well_typed (input : gmap string Js.Value) (p c t : string) :
  z.get input "password" = Js.Str p ->
  z.get input "confirmPassword" = Js.Str c ->
  z.get input "token" = Js.Str t ->
  value_of (resetPasswordObject isEmail input) = Some (mkResetPasswordFormData p c t).
Proof.
  intros Hp Hc Ht. unfold resetPasswordObject.
  rewrite !and_field_value, !field_value, Hp, Hc, Ht, !string_value. reflexivity.
Qed.

Lemma changePasswordObject_well_typed (input : gmap string Js.Value) (cur p c : string) :
  z.get input "currentPassword" = Js.Str cur ->
  z.get input "newPassword" = Js.Str p ->
  z.get input "confirmPassword" = Js.Str c ->
  value_of (changePasswordObject isEmail input) = Some (mkChangePasswordFormData cur p c).
Proof.
  intros Hcur Hp Hc. unfold changePasswordObject, changePassword_newPassword.
  rewrite !and_field_value, !field_value, Hp, Hc, Hcur, !string_value. reflexivity.
Qed.

End Mismatch.

(** C8, as the specification words it, does not hold: a registration whose
    two passwords differ and whose [terms] key is missing is rejected for
    the missing key only; the object is aborted, the refinement comparing
    the passwords is not run, and no mismatch error is attached to
    [confirmPassword]. *)
Lemma mismatch_not_reported_after_abort :
  ~ (forall (isEmail : string -> bool) (input : gmap string Js.Value) (p c : string),
        z.get input "password" = Js.Str p ->
        z.get input "confirmPassword" = Js.Str c ->
        p <> c ->
        List.In mismatch (z.issues (registerSchema isEmail input))).
Proof.
  intros H.
  specialize (H example_isEmail
                (delete "terms" (<["confirmPassword" := Js.Str "Abcdef2!"]>
                                   example_registration))
                "Abcdef1!" "Abcdef2!" eq_refl eq_refl ltac:(discriminate)).
  vm_compute in H. destruct H as [H | []]. discriminate H.
Qed.

(** C8 (amended): when the password (the new password, for a password
    change) differs from [confirmPassword], each of the three schemas
    rejects the input.  The mismatch error is attached to [confirmPassword]
    whenever the object itself was not aborted, that is whenever every
    other key has a value of the expected type (for a reset a string
    [token], for a password change a string [currentPassword], for a
    registration the conditions of [well_typed_registration]); it does not
    matter which of the two passwords is the wrong one. *)
Theorem password_mismatch_rejected
    (isEmail : string -> bool) (input : gmap string Js.Value) (p c : string) :
  p <> c ->
  z.get input "confirmPassword" = Js.Str c ->
  (z.get input "password" = Js.Str p ->
   (exists iss, z.safeParse (registerSchema isEmail input) = z.failure iss)
   /\ (z.aborted (registerObject isEmail input) = false ->
       List.In mismatch (z.issues (registerSchema isEmail input)))
   /\ (well_typed_registration input ->
       exists iss, z.safeParse (registerSchema isEmail input) = z.failure iss
                   /\ List.In mismatch iss)
   /\ (exists iss, z.safeParse (resetPasswordSchema isEmail input) = z.failure iss)
   /\ (forall t, z.get input "token" = Js.Str t ->
       exists iss, z.safeParse (resetPasswordSchema isEmail input) = z.failure iss
                   /\ List.In mismatch iss))
  /\ (z.get input "newPassword" = Js.Str p ->
      (exists iss, z.safeParse (changePasswordSchema isEmail input) = z.failure iss)
      /\ (forall cur, z.get input "currentPassword" = Js.Str cur ->
          exists iss, z.safeParse (changePasswordSchema isEmail input) = z.failure iss
                      /\ List.In mismatch iss)).
Proof.
  intros Hne Hc.
  assert (Heqb : String.eqb p c = false) by (apply String.eqb_neq; exact Hne).
  split; intros Hp.
  - assert (Hreg : forall data, value_of (registerObject isEmail input) = Some data ->
                     String.eqb (reg_password data) (reg_confirmPassword data) = false).
    { intros data Hdata.
      destruct (registerObject_passwords isEmail input data Hdata) as [H1 H2].
      rewrite Hp in H1. rewrite Hc in H2. congruence. }
    assert (Hreset : forall data, value_of (resetPasswordObject isEmail input) = Some data ->
                     String.eqb (reset_password data) (reset_confirmPassword data) = false).
    { intros data Hdata.
      destruct (resetPasswordObject_passwords isEmail input data Hdata) as [H1 H2].
      rewrite Hp in H1. rewrite Hc in H2. congruence. }
    split; [|split; [|split; [|split]]].
    + apply refine_rejects. exact Hreg.
    + intros Hab. apply aborted_value in Hab as [data Hdata].
      unfold registerSchema.
      rewrite (refine_fails_issues _ _ _ _ data Hdata (Hreg data Hdata)).
      apply in_or_app. right. left. reflexivity.
    + intros Hwt.
      destruct (registerObject_well_typed isEmail input p c Hwt Hp Hc)
        as (data & Hdata & _).
      eexists. split.
      * apply (refine_fails _ _ _ _ data Hdata (Hreg data Hdata)).
      * apply in_or_app. right. left. reflexivity.
    + apply refine_rejects. exact Hreset.
    + intros t Ht.
      pose proof (resetPasswordObject_well_typed isEmail input p c t Hp Hc Ht) as Hdata.
      eexists. split.
      * apply (refine_fails _ _ _ _ _ Hdata (Hreset _ Hdata)).
      * apply in_or_app. right. left. reflexivity.
  - assert (Hchange : forall data,
                     value_of (changePasswordObject isEmail input) = Some data ->
                     String.eqb (change_newPassword data) (change_confirmPassword data)
                     = false).
    { intros data Hdata.
      destruct (changePasswordObject_passwords isEmail input data Hdata) as [H1 H2].
      rewrite Hp in H1. rewrite Hc in H2. congruence. }
    split.
    + apply refine_rejects. exact Hchange.
    + intros cur Hcur.
      pose proof (changePasswordObject_well_typed isEmail input cur p c Hcur Hp Hc)
        as Hdata.
      eexists. split.
      * apply (refine_fails _ _ _ _ _ Hdata (Hchange _ Hdata)).
      * apply in_or_app. right. left. reflexivity.
Qed.

Lemma password_mismatch_rejected_witness :
  exists iss,
    z.safeParse (registerSchema example_isEmail
                   (<["confirmPassword" := Js.Str "Abcdef2!"]> example_registration))
    = z.failure iss
    /\ List.In mismatch iss.
Proof.
  refine (proj1 (proj2 (proj2
            (proj1 (password_mismatch_rejected example_isEmail
                      (<["confirmPassword" := Js.Str "Abcdef2!"]> example_registration)
                      "Abcdef1!" "Abcdef2!" _ _) _))) _).
  - discriminate.
  - reflexivity.
  - reflexivity.
  - unfold well_typed_registration. repeat split.
    + exists "jo@example.com". reflexivity.
    + exists "Jo". reflexivity.
    + exists "Li". reflexivity.
    + exists "0123456789". reflexivity.
    + left. reflexivity.
    + left. reflexivity.
    + left. reflexivity.
    + exists true. reflexivity.
Defined.

(** *** Registration: terms, defaults, lengths *)

Section Registration.

Variable isEmail : string -> bool.

Lemma string_OK_inv (checks : list z.Check) (v : Js.Value) (s : string) :
  fst (z.string isEmail checks v) = z.OK s ->
  v = Js.Str s /\ forallb (z.check_passes isEmail s) checks = true.
Proof.
  destruct v as [| |b|n| |s']; try discriminate.
  rewrite string_status.
  destruct (forallb _ checks) eqn:Hall; intros H; [|discriminate H].
  injection H as <-. split; [reflexivity | exact Hall].
Qed.

(** The value a key with a default is parsed from. *)
Definition defaulted (v d : Js.Value) : Js.Value :=
  match v with
  | Js.Undefined => d
  | _ => v
  end.

Lemma default_unfold {A : Type} (schema : z.Schema A) (d v : Js.Value) :
  z.default schema d v = schema (defaulted v d).
Proof. destruct v; reflexivity. Qed.

Lemma enum_OK_inv (values : list string) (v : Js.Value) (s : string) :
  fst (z.enum values v) = z.OK s -> v = Js.Str s /\ List.In s values.
Proof.
  destruct v as [| |b|n| |s']; try discriminate. cbn.
  destruct (existsb (String.eqb s') values) eqn:Hex; intros H; [|discriminate H].
  injection H as <-. split; [reflexivity|].
  apply existsb_exists in Hex as (x & Hx & Heq).
  apply String.eqb_eq in Heq. subst. exact Hx.
Qed.

Lemma enum_rejects (values : list string) (s : string) :
  ~ List.In s values ->
  z.enum values (Js.Str s) = (z.INVALID, [z.mkIssue [] z.invalid_enum_value None]).
Proof.
  intros Hnot. cbn.
  destruct (existsb (String.eqb s) values) eqn:Hex; [|reflexivity].
  apply existsb_exists in Hex as (x & Hx & Heq).
  apply String.eqb_eq in Heq. subst. contradiction.
Qed.

Lemma number_OK_inv (v : Js.Value) (n : Z) :
  fst (z.number v) = z.OK n -> v = Js.Num n.
Proof. destruct v; cbn; intros H; try discriminate H. congruence. Qed.

Lemma register_terms_OK_inv (v : Js.Value) (b : bool) :
  fst (register_terms v) = z.OK b -> v = Js.Bool true /\ b = true.
Proof.
  destruct v as [| |[]|n| |s]; cbn; intros H; try discriminate H.
  injection H as <-. split; reflexivity.
Qed.

Lemma min_issue (n : nat) (msg s : string) :
  (String.length s < n)%nat ->
  z.issues (z.string isEmail [z.min n msg] (Js.Str s))
  = [z.mkIssue [] z.too_small (Some msg)].
Proof.
  intros Hlt. rewrite string_issues. cbn [List.filter z.check_passes].
  apply Nat.leb_gt in Hlt. rewrite Hlt. reflexivity.
Qed.

Ltac object_fields H :=
  repeat (apply and_field_OK_inv in H as (? & ? & H & ? & ?));
  apply object_OK_inv in H; subst;
  repeat match goal with
         | H : fst (z.field _ _ _) = z.OK _ |- _ => rewrite field_status in H
         end.

(** What an accepted registration looks like. *)
Lemma registerSchema_accepted (input : gmap string Js.Value) (data : RegisterFormData) :
  fst (registerSchema isEmail input) = z.OK data ->
  z.get input "terms" = Js.Bool true
  /\ reg_terms data = true
  /\ defaulted (z.get input "role") (Js.Str (Role_value PATIENT)) = Js.Str (reg_role data)
  /\ List.In (reg_role data) (List.map Role_value all_roles)
  /\ defaulted (z.get input "gender") (Js.Str "MALE") = Js.Str (reg_gender data)
  /\ List.In (reg_gender data) ["MALE"; "FEMALE"; "OTHER"]
  /\ defaulted (z.get input "age") (Js.Num 18) = Js.Num (reg_age data)
  /\ z.get input "firstName" = Js.Str (reg_firstName data)
  /\ (2 <= String.length (reg_firstName data))%nat
  /\ z.get input "lastName" = Js.Str (reg_lastName data)
  /\ (2 <= String.length (reg_lastName data))%nat
  /\ z.get input "phone" = Js.Str (reg_phone data)
  /\ (10 <= String.length (reg_phone data))%nat.
Proof.
  unfold registerSchema. intros H.
  apply refine_OK_inv in H as [H _].
  unfold registerObject in H. object_fields H.
  cbn [reg_terms reg_role reg_gender reg_age reg_firstName reg_lastName reg_phone].
  repeat match goal with
         | H : fst (z.default _ _ _) = _ |- _ => rewrite default_unfold in H
         end.
  repeat match goal with
         | H : fst (z.string _ _ _) = z.OK _ |- _ =>
             apply string_OK_inv in H as [? H]; cbn [forallb z.check_passes] in H;
             try (rewrite andb_true_r in H; apply Nat.leb_le in H)
         | H : fst (z.enum _ _) = z.OK _ |- _ => apply enum_OK_inv in H as [? ?]
         | H : fst (createRoleEnum _) = z.OK _ |- _ => apply enum_OK_inv in H as [? ?]
         | H : fst (z.number _) = z.OK _ |- _ => apply number_OK_inv in H
         | H : fst (register_terms _) = z.OK _ |- _ =>
             apply register_terms_OK_inv in H as [? ?]
         end.
  subst. repeat split; first [assumption | reflexivity].
Qed.

(** An issue of a key of the registration object is an issue of the
    schema. *)
Lemma registerSchema_issue (input : gmap string Js.Value) (i : z.Issue) :
  List.In i (z.issues (registerObject isEmail input)) ->
  List.In i (z.issues (registerSchema isEmail input)).
Proof. apply refine_issues_incl. Qed.

End Registration.

Lemma and_field_issue_l {A B : Type} (rf : z.Return (A -> B)) (ra : z.Return A)
    (i : z.Issue) :
  List.In i (z.issues rf) -> List.In i (z.issues (rf <*> ra)).
Proof. intros H. rewrite and_field_issues. apply in_or_app. left. exact H. Qed.

Lemma and_field_issue_r {A B : Type} (rf : z.Return (A -> B)) (ra : z.Return A)
    (i : z.Issue) :
  List.In i (z.issues ra) -> List.In i (z.issues (rf <*> ra)).
Proof. intros H. rewrite and_field_issues. apply in_or_app. right. exact H. Qed.

Lemma Role_value_listed (s : string) :
  List.In s (List.map Role_value all_roles) <-> exists r, s = Role_value r.
Proof.
  rewrite in_map_iff. split.
  - intros (r & <- & _). exists r. reflexivity.
  - intros [r ->]. exists r. split; [reflexivity|].
    destruct r; cbn; tauto.
Qed.

(** Finds the key an issue comes from among the keys of an object, given
    the value [Hget] of that key in the input. *)
Ltac issue_of_key Hget tac :=
  first
    [ apply and_field_issue_r; rewrite field_issues; rewrite Hget; tac
    | apply and_field_issue_l; issue_of_key Hget tac ].

(** C9: the registration schema rejects every input whose [terms] is not
    [true]; on an accepted input, a role that was left out is [PATIENT]
    and the role is one of the five roles, a gender that was left out is
    [MALE] and the gender is one of [MALE], [FEMALE], [OTHER], an age that
    was left out is 18, the first and the last name are at least 2 long
    and the phone at least 10; a shorter name or phone, a role or a gender
    outside its set are rejected, each with its issue on its key. *)
Theorem registerSchema_terms_defaults_lengths
    (isEmail : string -> bool) (input : gmap string Js.Value) :
  (z.get input "terms" <> Js.Bool true ->
   exists iss, z.safeParse (registerSchema isEmail input) = z.failure iss)
  /\ (forall data,
        z.safeParse (registerSchema isEmail input) = z.success data ->
        (z.get input "role" = Js.Undefined -> reg_role data = Role_value PATIENT)
        /\ (forall s, z.get input "role" = Js.Str s -> reg_role data = s)
        /\ (exists r : Role, reg_role data = Role_value r)
        /\ (z.get input "gender" = Js.Undefined -> reg_gender data = "MALE")
        /\ (forall s, z.get input "gender" = Js.Str s -> reg_gender data = s)
        /\ List.In (reg_gender data) ["MALE"; "FEMALE"; "OTHER"]
        /\ (z.get input "age" = Js.Undefined -> reg_age data = 18%Z)
        /\ (forall n, z.get input "age" = Js.Num n -> reg_age data = n)
        /\ (2 <= String.length (reg_firstName data))%nat
        /\ (2 <= String.length (reg_lastName data))%nat
        /\ (10 <= String.length (reg_phone data))%nat
        /\ reg_terms data = true)
  /\ (forall s, z.get input "firstName" = Js.Str s -> (String.length s < 2)%nat ->
      exists iss,
        z.safeParse (registerSchema isEmail input) = z.failure iss
        /\ List.In (z.mkIssue ["firstName"] z.too_small
                      (Some "First name must be at least 2 characters")) iss)
  /\ (forall s, z.get input "lastName" = Js.Str s -> (String.length s < 2)%nat ->
      exists iss,
        z.safeParse (registerSchema isEmail input) = z.failure iss
        /\ List.In (z.mkIssue ["lastName"] z.too_small
                      (Some "Last name must be at least 2 characters")) iss)
  /\ (forall s, z.get input "phone" = Js.Str s -> (String.length s < 10)%nat ->
      exists iss,
        z.safeParse (registerSchema isEmail input) = z.failure iss
        /\ List.In (z.mkIssue ["phone"] z.too_small
                      (Some "Phone number must be at least 10 characters")) iss)
  /\ (forall s, z.get input "role" = Js.Str s -> (forall r, s <> Role_value r) ->
      exists iss,
        z.safeParse (registerSchema isEmail input) = z.failure iss
        /\ List.In (z.mkIssue ["role"] z.invalid_enum_value None) iss)
  /\ (forall s, z.get input "gender" = Js.Str s ->
      ~ List.In s ["MALE"; "FEMALE"; "OTHER"] ->
      exists iss,
        z.safeParse (registerSchema isEmail input) = z.failure iss
        /\ List.In (z.mkIssue ["gender"] z.invalid_enum_value None) iss).
Proof.
  pose proof (safeParse_cases (registerSchema isEmail input)) as Hcases.
  pose proof (registerSchema_accepted isEmail input) as Hacc.
  split; [|split; [|split; [|split; [|split; [|split]]]]].
  - intros Hterms. destruct Hcases as [(data & Hok & _) | [_ Hfail]]; [|eauto].
    apply Hacc in Hok as (Ht & _). contradiction.
  - intros data Hs. apply safeParse_success in Hs.
    apply Hacc in Hs
      as (_ & Hterms & Hrole & Hroles & Hgender & Hgenders & Hage & _ & Hfirst
          & _ & Hlast & _ & Hphone).
    apply Role_value_listed in Hroles.
    split; [|split; [|split; [exact Hroles|]]].
    { intros Hu. rewrite Hu in Hrole. cbn in Hrole. injection Hrole as <-. reflexivity. }
    { intros s Hu. rewrite Hu in Hrole. cbn in Hrole. injection Hrole as <-. reflexivity. }
    split; [|split; [|split; [exact Hgenders|]]].
    { intros Hu. rewrite Hu in Hgender. cbn in Hgender. injection Hgender as <-. reflexivity. }
    { intros s Hu. rewrite Hu in Hgender. cbn in Hgender. injection Hgender as <-. reflexivity. }
    split; [|split].
    { intros Hu. rewrite Hu in Hage. cbn in Hage. injection Hage as <-. reflexivity. }
    { intros n Hu. rewrite Hu in Hage. cbn in Hage. injection Hage as <-. reflexivity. }
    tauto.
  - intros s Hget Hlen. destruct Hcases as [(data & Hok & _) | [_ Hfail]].
    + apply Hacc in Hok as (_ & _ & _ & _ & _ & _ & _ & Hf & Hlf & _).
      rewrite Hget in Hf. injection Hf as ->. lia.
    + eexists. split; [exact Hfail|].
      apply registerSchema_issue. unfold registerObject.
      issue_of_key Hget ltac:(rewrite min_issue by exact Hlen; left; reflexivity).
  - intros s Hget Hlen. destruct Hcases as [(data & Hok & _) | [_ Hfail]].
    + apply Hacc in Hok as (_ & _ & _ & _ & _ & _ & _ & _ & _ & Hl & Hll & _).
      rewrite Hget in Hl. injection Hl as ->. lia.
    + eexists. split; [exact Hfail|].
      apply registerSchema_issue. unfold registerObject.
      issue_of_key Hget ltac:(rewrite min_issue by exact Hlen; left; reflexivity).
  - intros s Hget Hlen. destruct Hcases as [(data & Hok & _) | [_ Hfail]].
    + apply Hacc in Hok as (_ & _ & _ & _ & _ & _ & _ & _ & _ & _ & _ & Hp & Hlp).
      rewrite Hget in Hp. injection Hp as ->. lia.
    + eexists. split; [exact Hfail|].
      apply registerSchema_issue. unfold registerObject.
      issue_of_key Hget ltac:(rewrite min_issue by exact Hlen; left; reflexivity).
  - intros s Hget Hnot.
    assert (Hout : ~ List.In s [Role_value SUPER_ADMIN; Role_value CLINIC_ADMIN;
                                Role_value DOCTOR; Role_value RECEPTIONIST;
                                Role_value PATIENT]).
    { change (~ List.In s (List.map Role_value all_roles)).
      rewrite Role_value_listed. intros [r ->]. apply (Hnot r). reflexivity. }
    destruct Hcases as [(data & Hok & _) | [_ Hfail]].
    + apply Hacc in Hok as (_ & _ & Hrole & Hroles & _).
      rewrite Hget in Hrole. cbn in Hrole. injection Hrole as ->. contradiction.
    + eexists. split; [exact Hfail|].
      apply registerSchema_issue. unfold registerObject.
      issue_of_key Hget
        ltac:(rewrite default_unfold; cbn [defaulted]; unfold createRoleEnum;
              rewrite (enum_rejects _ s Hout); left; reflexivity).
  - intros s Hget Hout.
    destruct Hcases as [(data & Hok & _) | [_ Hfail]].
    + apply Hacc in Hok as (_ & _ & _ & _ & Hgender & Hgenders & _).
      rewrite Hget in Hgender. cbn in Hgender. injection Hgender as ->. contradiction.
    + eexists. split; [exact Hfail|].
      apply registerSchema_issue. unfold registerObject.
      issue_of_key Hget
        ltac:(rewrite default_unfold; cbn [defaulted];
              rewrite (enum_rejects _ s Hout); left; reflexivity).
Qed.

Lemma registerSchema_terms_defaults_lengths_witness :
  (exists data,
     z.safeParse (registerSchema example_isEmail example_registration) = z.success data
     /\ reg_role data = "PATIENT"
     /\ reg_gender data = "MALE"
     /\ reg_age data = 18%Z)
  /\ (exists iss,
        z.safeParse (registerSchema example_isEmail
                       (<["terms" := Js.Bool false]> example_registration))
        = z.failure iss)
  /\ (exists iss,
        z.safeParse (registerSchema example_isEmail
                       (<["firstName" := Js.Str "J"]> example_registration))
        = z.failure iss
        /\ List.In (z.mkIssue ["firstName"] z.too_small
                      (Some "First name must be at least 2 characters")) iss).
Proof.
  split; [|split].
  - exists (mkRegisterFormData "jo@example.com" "Abcdef1!" "Abcdef1!" "Jo" "Li"
              "0123456789" "MALE" "PATIENT" 18 true).
    assert (Hparse :
              z.safeParse (registerSchema example_isEmail example_registration)
              = z.success (mkRegisterFormData "jo@example.com" "Abcdef1!" "Abcdef1!"
                             "Jo" "Li" "0123456789" "MALE" "PATIENT" 18 true))
      by (vm_compute; reflexivity).
    split; [exact Hparse|].
    destruct (proj1 (proj2 (registerSchema_terms_defaults_lengths
                              example_isEmail example_registration)) _ Hparse)
      as (Hrole & _ & _ & Hgender & _ & _ & Hage & _).
    split; [|split].
    + apply Hrole. reflexivity.
    + apply Hgender. reflexivity.
    + apply Hage. reflexivity.
  - apply (proj1 (registerSchema_terms_defaults_lengths example_isEmail
                    (<["terms" := Js.Bool false]> example_registration))).
    vm_compute. discriminate.
  - apply (proj1 (proj2 (proj2 (registerSchema_terms_defaults_lengths example_isEmail
                    (<["firstName" := Js.Str "J"]> example_registration))))
             "J").
    + reflexivity.
    + vm_compute. lia.
Defined.

(** * Further properties of the hook *)

(** ** The resolver *)

(** X1: What the resolver returns is the explicit redirect only when that is
    non-empty and free of ["/auth/"]; otherwise it is the dashboard path of
    the user's role, or the login path when there is no role. *)
Theorem getRedirectPath_result_cases
    (getDashboardByRole : Role -> string) (user : UserRef) (redirectUrl : option string) :
  (redirectUrl = Some (getRedirectPath getDashboardByRole user redirectUrl)
   /\ getRedirectPath getDashboardByRole user redirectUrl <> ""
   /\ Js.includes (getRedirectPath getDashboardByRole user redirectUrl) "/auth/" = false)
  \/ (exists r, role_of user = Some r
                /\ getRedirectPath getDashboardByRole user redirectUrl = getDashboardByRole r)
  \/ (role_of user = None
      /\ getRedirectPath getDashboardByRole user redirectUrl = LOGIN_PATH).
Proof.
  unfold getRedirectPath.
  destruct redirectUrl as [url|].
  - destruct (Js.truthy_str url) eqn:Ht; cbn [andb].
    + destruct (Js.includes url "/auth/") eqn:Hi; cbn [negb].
      * right. destruct (role_of user) as [r|]; [left; eauto | right; auto].
      * left. split; [reflexivity|]. split; [|exact Hi].
        apply truthy_str_iff. exact Ht.
    + right. destruct (role_of user) as [r|]; [left; eauto | right; auto].
  - right. destruct (role_of user) as [r|]; [left; eauto | right; auto].
Qed.

(** X2: With a route table that has no empty path, the resolver never returns
    the empty path, whatever the server sent as redirect. *)
Theorem getRedirectPath_never_empty
    (getDashboardByRole : Role -> string) (user : UserRef) (redirectUrl : option string) :
  (forall r, getDashboardByRole r <> "") ->
  getRedirectPath getDashboardByRole user redirectUrl <> "".
Proof.
  intros Hroutes.
  destruct (getRedirectPath_result_cases getDashboardByRole user redirectUrl)
    as [(_ & Hne & _) | [(r & _ & ->) | (_ & ->)]].
  - exact Hne.
  - apply Hroutes.
  - discriminate.
Qed.

Lemma example_dashboards_nonempty (r : Role) : example_dashboards r <> "".
Proof. destruct r; discriminate. Qed.

Lemma getRedirectPath_never_empty_witness :
  getRedirectPath example_dashboards (Some None) (Some "") <> "".
Proof.
  apply (getRedirectPath_never_empty example_dashboards (Some None) (Some "")).
  intros r. destruct r; discriminate.
Defined.

(** ** One call of an operation *)

(** A call of one of the operations the hook returns, with the way its
    remote action settles. *)
Inductive Call : Type :=
| CallLogin (o : Js.Outcome AuthResponse)
| CallGoogleLogin (o : Js.Outcome GoogleLoginResponse)
| CallRegister (o : Js.Outcome unit)
| CallLogout (o : Js.Outcome unit)
| CallRegisterWithClinic (o : Js.Outcome AuthResponse)
| CallVerifyOTP (o : Js.Outcome AuthResponse)
| CallRequestOTP (o : Js.Outcome MessageResponse)
| CallForgotPassword (o : Js.Outcome AuthResponse)
| CallResetPassword (o : Js.Outcome AuthResponse)
| CallSocialLogin (o : Js.Outcome AuthResponse)
| CallRequestMagicLink (o : Js.Outcome AuthResponse)
| CallVerifyMagicLink (o : Js.Outcome AuthResponse)
| CallChangePassword (o : Js.Outcome AuthResponse)
| CallTerminateAllSessions (o : Js.Outcome unit)
| CallCheckOTPStatus (o : Js.Outcome bool)
| CallInvalidateOTP (o : Js.Outcome MessageResponse)
| CallVerifyEmail (o : Js.Outcome MessageResponse)
| CallFacebookLogin (o : Js.Outcome AuthResponse)
| CallAppleLogin
| CallHandleAuthRedirect (user : UserRef) (redirectUrl : option string).

Definition run (getDashboardByRole : Role -> string) (c : Call) : Eff :=
  match c with
  | CallLogin o => loginMutation getDashboardByRole o
  | CallGoogleLogin o => googleLogin getDashboardByRole o
  | CallRegister o => registerMutation o
  | CallLogout o => logoutMutation o
  | CallRegisterWithClinic o => registerWithClinic getDashboardByRole o
  | CallVerifyOTP o => verifyOTP getDashboardByRole o
  | CallRequestOTP o => requestOTP o
  | CallForgotPassword o => forgotPassword o
  | CallResetPassword o => resetPassword o
  | CallSocialLogin o => socialLogin getDashboardByRole o
  | CallRequestMagicLink o => requestMagicLink o
  | CallVerifyMagicLink o => verifyMagicLink getDashboardByRole o
  | CallChangePassword o => changePassword o
  | CallTerminateAllSessions o => terminateAllSessionsMutation o
  | CallCheckOTPStatus o => checkOTPStatus o
  | CallInvalidateOTP o => invalidateOTP o
  | CallVerifyEmail o => verifyEmail o
  | CallFacebookLogin o => facebookLogin getDashboardByRole o
  | CallAppleLogin => appleLogin
  | CallHandleAuthRedirect user redirectUrl =>
      handleAuthRedirect getDashboardByRole user redirectUrl
  end.

(** The calls that write into the cache: a login that succeeds with a
    user, every logout, and a termination of all sessions that
    succeeds. *)
Definition writes_cache (c : Call) : bool :=
  match c with
  | CallLogin (Js.Resolved result) =>
      match user result with Some _ => true | None => false end
  | CallLogout _ => true
  | CallTerminateAllSessions (Js.Resolved _) => true
  | _ => false
  end.

Lemma invalidateQueries_data (filter : QueryKey) (st : ClientState) (key : QueryKey) :
  data <$> (cache (queryClient.invalidateQueries filter st) !! key)
  = data <$> (cache st !! key).
Proof.
  rewrite invalidateQueries_lookup.
  destruct (cache st !! key) as [q|]; [|reflexivity].
  destruct (queryClient.partialMatchKey filter key); reflexivity.
Qed.

(** X3: Every other call leaves the data of every cached query as it was and
    adds or removes no query; at most it marks queries stale. *)
Theorem only_login_logout_terminate_write_cache
    (getDashboardByRole : Role -> string) (c : Call) (st : ClientState) :
  writes_cache c = false ->
  forall key : QueryKey,
    data <$> (cache (run getDashboardByRole c st) !! key) = data <$> (cache st !! key).
Proof.
  intros Hw key.
  destruct c as [o|o|o|o|o|o|o|o|o|o|o|o|o|o|o|o|o|o| |u r];
    try (destruct o as [d|e]); cbn in Hw; try discriminate Hw;
    try reflexivity;
    try (exact (invalidateQueries_data SESSION st key));
    try (destruct e; reflexivity).
  - unfold run, loginMutation, login_mutationFn.
    destruct (user d); [discriminate Hw | reflexivity].
  - unfold run, registerWithClinic, useMutation.
    destruct (user d); [|destruct (Js.truthy_opt (redirectUrl d))];
      exact (invalidateQueries_data SESSION st key).
Qed.

Lemma only_login_logout_terminate_write_cache_witness :
  data <$> (cache (run example_dashboards
                     (CallChangePassword
                        (Js.Resolved (mkAuthResponse None None None None)))
                     example_state) !! SESSION)
  = Some (DataOther (Js.Str "cached")).
Proof.
  rewrite (only_login_logout_terminate_write_cache example_dashboards
             (CallChangePassword (Js.Resolved (mkAuthResponse None None None None)))
             example_state eq_refl SESSION).
  reflexivity.
Defined.

(** The calls that show no toast: a successful OTP status check, the Apple
    login, the bare redirect, and a rejection with [null] or [undefined]
    of one of the nine operations whose error handler reads
    [error.message] unguarded (the read throws before anything is
    shown). *)
Definition silent (c : Call) : bool :=
  match c with
  | CallCheckOTPStatus (Js.Resolved _) => true
  | CallAppleLogin => true
  | CallHandleAuthRedirect _ _ => true
  | CallLogin (Js.Rejected Js.Nullish)
  | CallRegister (Js.Rejected Js.Nullish)
  | CallRequestOTP (Js.Rejected Js.Nullish)
  | CallChangePassword (Js.Rejected Js.Nullish)
  | CallTerminateAllSessions (Js.Rejected Js.Nullish)
  | CallCheckOTPStatus (Js.Rejected Js.Nullish)
  | CallInvalidateOTP (Js.Rejected Js.Nullish)
  | CallVerifyEmail (Js.Rejected Js.Nullish)
  | CallFacebookLogin (Js.Rejected Js.Nullish) => true
  | _ => false
  end.

(** X4: A call never removes or rewrites what was pushed or shown before; it
    pushes at most one path and shows at most one toast: exactly one,
    unless it is one of the silent calls, which show none. *)
Theorem calls_append_at_most_one_push_and_toast
    (getDashboardByRole : Role -> string) (c : Call) (st : ClientState) :
  exists (paths : list string) (shown : list Toast),
    pushed (run getDashboardByRole c st) = pushed st ++ paths
    /\ toasts (run getDashboardByRole c st) = toasts st ++ shown
    /\ (List.length paths <= 1)%nat
    /\ List.length shown = (if silent c then 0 else 1)%nat.
Proof.
  assert (Hnil : forall (A : Type) (l : list A), l = l ++ [])
    by (intros; symmetry; apply app_nil_r).
  destruct c as [o|o|o|o|o|o|o|o|o|o|o|o|o|o|o|o|o|o| |u r];
    try (destruct o as [d|e]); cbn [run silent].
  all: try (unfold loginMutation, login_mutationFn; destruct (user d)).
  all: try (unfold logoutMutation; rewrite logout_mutationFn_rejected;
            destruct e as [msg| | |msg];
            [destruct (Js.includes msg "401" || Js.includes msg "Session"
                       || Js.includes msg "session")| | |]).
  all: try (unfold registerWithClinic, useMutation; destruct (user d);
            [|destruct (Js.truthy_opt (redirectUrl d))]).
  all: try (destruct e as [msg| | |msg]).
  all: first
         [ exists [], []; repeat split; [apply Hnil | apply Hnil | cbn; lia]
         | eexists [_], []; repeat split; [apply Hnil | cbn; lia]
         | eexists [], [_]; repeat split; [apply Hnil | cbn; lia]
         | eexists [_], [_]; repeat split; cbn; lia ].
Qed.

Lemma calls_append_at_most_one_push_and_toast_witness :
  toasts (run example_dashboards (CallVerifyEmail (Js.Rejected Js.Nullish))
            example_state)
  = toasts example_state.
Proof.
  destruct (calls_append_at_most_one_push_and_toast example_dashboards
              (CallVerifyEmail (Js.Rejected Js.Nullish)) example_state)
    as (paths & shown & _ & Hshown & _ & Hlen).
  rewrite Hshown. destruct shown; [apply app_nil_r | discriminate Hlen].
Defined.

(** ** Logout *)

(** X5: However the remote logout settles (it resolves, it throws an error of
    any message, it throws something that is not an error) and whatever
    was cached, after a logout the cache holds a [null] session and
    nothing else, and the login path is the last path pushed. *)
Theorem logout_always_clears_and_leaves
    (logoutAction : Js.Outcome unit) (st : ClientState) :
  cache (logoutMutation logoutAction st) = {[ SESSION := mkQuery DataNull false ]}
  /\ pushed (logoutMutation logoutAction st) = pushed st ++ ["/auth/login"]
  /\ exists t, toasts (logoutMutation logoutAction st) = toasts st ++ [t].
Proof.
  unfold logoutMutation.
  destruct logoutAction as [[]|e].
  - repeat split. eexists. reflexivity.
  - rewrite logout_mutationFn_rejected. destruct e as [msg| | |msg].
    + destruct (Js.includes msg "401" || Js.includes msg "Session"
                || Js.includes msg "session");
        repeat split; eexists; reflexivity.
    + repeat split. eexists. reflexivity.
    + repeat split. eexists. reflexivity.
    + repeat split. eexists. reflexivity.
Qed.

(** A thrown value without a message that is not an [Error] is not taken
    for an invalid session: the logout is local only and shows the error
    toast. *)
Theorem logout_non_error_is_failure (st : ClientState) :
  logoutMutation (A := unit) (Js.Rejected Js.NotAnError) st
  = mkClientState {[ SESSION := mkQuery DataNull false ]}
      (pushed st ++ ["/auth/login"])
      (toasts st
       ++ [mkToast Failure (Some "Logged out locally, but server logout failed")]).
Proof. reflexivity. Qed.

(** ** What the hook returns about the session *)

(** [session]: the data of the session query, [None] while there is
    none. *)
Definition session (st : ClientState) : option QueryData :=
  data <$> (cache st !! SESSION).

(** [session?.user]; a session that is [null], or a value without
    properties, has no user. *)
Definition session_user (st : ClientState) : option User :=
  match session st with
  | Some (DataSession s) => Some (s_user s)
  | _ => None
  end.

(** [isAuthenticated: !!session?.user] *)
Definition isAuthenticated (st : ClientState) : bool :=
  match session_user st with
  | Some _ => true
  | None => false
  end.

Lemma lookup_session_insert (q : Query) (m : gmap (list string) Query) :
  <[SESSION := q]> m !! SESSION = Some q.
Proof. apply lookup_insert_eq. Qed.

(** X6: After a login that succeeds with a user the hook reports an
    authenticated user of the role of the response, at once, without a
    refetch; after a logout, however it went, it reports none; a login
    that fails changes nothing of what is reported. *)
Theorem isAuthenticated_after_login_and_logout
    (getDashboardByRole : Role -> string) (st : ClientState) :
  (forall result u,
     user result = Some u ->
     isAuthenticated (loginMutation getDashboardByRole (Js.Resolved result) st) = true
     /\ role <$> session_user (loginMutation getDashboardByRole (Js.Resolved result) st)
        = Some (role u)
     /\ forall logoutAction : Js.Outcome unit,
          isAuthenticated
            (logoutMutation logoutAction
               (loginMutation getDashboardByRole (Js.Resolved result) st)) = false)
  /\ (forall logoutAction : Js.Outcome unit,
        isAuthenticated (logoutMutation logoutAction st) = false
        /\ session (logoutMutation logoutAction st) = Some DataNull)
  /\ (forall result, user result = None ->
        session_user (loginMutation getDashboardByRole (Js.Resolved result) st)
        = session_user st)
  /\ (forall e,
        session_user (loginMutation getDashboardByRole (Js.Rejected e) st)
        = session_user st).
Proof.
  assert (Hout : forall (o : Js.Outcome unit) st',
             isAuthenticated (logoutMutation o st') = false
             /\ session (logoutMutation o st') = Some DataNull).
  { intros o st'. destruct (logout_always_clears_and_leaves o st') as (Hc & _).
    unfold isAuthenticated, session_user, session. rewrite Hc.
    rewrite lookup_singleton_eq. split; reflexivity. }
  split; [|split; [exact (fun o => Hout o st)|split]].
  - intros result u Hu.
    unfold loginMutation, login_mutationFn. rewrite Hu.
    unfold useMutation, login_onSuccess, andThen, isAuthenticated, session_user, session.
    cbn [router.push toast.success queryClient.setQueryData cache].
    rewrite lookup_session_insert. cbn.
    split; [reflexivity|]. split; [reflexivity|].
    intros o. apply Hout.
  - intros result Hu. unfold loginMutation, login_mutationFn. rewrite Hu. reflexivity.
  - intros e. destruct e; reflexivity.
Qed.

Lemma isAuthenticated_after_login_and_logout_witness :
  isAuthenticated
    (loginMutation example_dashboards
       (Js.Resolved
          (mkAuthResponse
             (Some (mkUser DOCTOR (Some "Jo") None None None None None ∅))
             None None None))
       (mkClientState ∅ [] [])) = true.
Proof.
  apply (proj1 (isAuthenticated_after_login_and_logout example_dashboards
                  (mkClientState ∅ [] []))
           (mkAuthResponse
              (Some (mkUser DOCTOR (Some "Jo") None None None None None ∅))
              None None None)
           (mkUser DOCTOR (Some "Jo") None None None None None ∅) eq_refl).
Defined.

(** ** Login: the normalization *)

(** A stored session read back as a response. *)
Definition response_of_session (s : Session) : AuthResponse :=
  mkAuthResponse (Some (s_user s)) (s_token s) (s_redirectUrl s) (s_message s).

Lemma or_str_idempotent (o : option string) :
  Js.or_str (Some (Js.or_str o "")) "" = Js.or_str o "".
Proof. destruct o as [[|c s]|]; reflexivity. Qed.

Lemma or_null_idempotent (o : option string) : Js.or_null (Js.or_null o) = Js.or_null o.
Proof. destruct o as [[|c s]|]; reflexivity. Qed.

(** X7: Normalizing is idempotent: what the login mutation function returns,
    fed to it again as a response, comes back unchanged.  A normalized
    user has every profile field but the date of birth present. *)
Theorem login_normalization_idempotent (result : AuthResponse) (data : Session) :
  login_mutationFn (Js.Resolved result) = Js.Resolved data ->
  login_mutationFn (Js.Resolved (response_of_session data)) = Js.Resolved data
  /\ firstName (s_user data) <> None
  /\ lastName (s_user data) <> None
  /\ phone (s_user data) <> None
  /\ gender (s_user data) <> None
  /\ address (s_user data) <> None
  /\ dateOfBirth (s_user data) <> Some "".
Proof.
  unfold login_mutationFn. destruct (user result) as [u|] eqn:Hu; [|discriminate].
  intros H. injection H as <-.
  cbn [response_of_session user s_user s_token s_redirectUrl s_message
       role firstName lastName phone dateOfBirth gender address other
       token redirectUrl message].
  rewrite !or_str_idempotent, or_null_idempotent.
  split; [reflexivity|]. repeat (split; [discriminate|]).
  destruct (dateOfBirth u) as [[|c s]|]; discriminate.
Qed.

Lemma login_normalization_idempotent_witness :
  login_mutationFn
    (Js.Resolved
       (response_of_session
          (mkSession (mkUser PATIENT (Some "Jo") (Some "") (Some "") None (Some "")
                        (Some "") ∅) None None None)))
  = Js.Resolved
      (mkSession (mkUser PATIENT (Some "Jo") (Some "") (Some "") None (Some "")
                    (Some "") ∅) None None None).
Proof.
  apply (proj1 (login_normalization_idempotent
                  (mkAuthResponse
                     (Some (mkUser PATIENT (Some "Jo") None None (Some "") None None ∅))
                     None None None)
                  _ eq_refl)).
Defined.

(** ** Where the flows navigate *)

(** X8: With a user and a usable explicit redirect in the response, the flows
    that go through the resolver (here [verifyOTP]) follow the redirect,
    while [registerWithClinic] goes to the dashboard of the role: the two
    have opposite priorities. *)
Theorem registerWithClinic_prefers_role_over_redirect
    (getDashboardByRole : Role -> string) (data : AuthResponse) (u : User)
    (url : string) (st : ClientState) :
  user data = Some u ->
  redirectUrl data = Some url ->
  url <> "" ->
  Js.includes url "/auth/" = false ->
  pushed (verifyOTP getDashboardByRole (Js.Resolved data) st) = pushed st ++ [url]
  /\ pushed (registerWithClinic getDashboardByRole (Js.Resolved data) st)
     = pushed st ++ [getDashboardByRole (role u)].
Proof.
  intros Hu Hr Hne Hauth. split.
  - unfold verifyOTP, useMutation, andThen. cbn [toast.success router.push pushed].
    rewrite invalidateQueries_pushed, Hr.
    rewrite (getRedirectPath_explicit _ _ _ Hne Hauth). reflexivity.
  - unfold registerWithClinic, useMutation. rewrite Hu. reflexivity.
Qed.

Lemma registerWithClinic_prefers_role_over_redirect_witness :
  pushed (verifyOTP example_dashboards
            (Js.Resolved
               (mkAuthResponse
                  (Some (mkUser DOCTOR None None None None None None ∅))
                  None (Some "/appointments") None))
            (mkClientState ∅ [] []))
  = ["/appointments"]
  /\ pushed (registerWithClinic example_dashboards
               (Js.Resolved
                  (mkAuthResponse
                     (Some (mkUser DOCTOR None None None None None None ∅))
                     None (Some "/appointments") None))
               (mkClientState ∅ [] []))
     = ["/doctor/dashboard"].
Proof.
  apply (registerWithClinic_prefers_role_over_redirect example_dashboards
           (mkAuthResponse
              (Some (mkUser DOCTOR None None None None None None ∅))
              None (Some "/appointments") None)
           (mkUser DOCTOR None None None None None None ∅)
           "/appointments" (mkClientState ∅ [] []));
    [reflexivity | reflexivity | discriminate | reflexivity].
Defined.

(** X9: Without a user in the response, [registerWithClinic] pushes the
    redirect of the response as it is, also one into the authentication
    pages, where the resolver (here under [verifyOTP]) would refuse it and
    push the login path. *)
Theorem registerWithClinic_does_not_filter_redirect
    (getDashboardByRole : Role -> string) (data : AuthResponse)
    (url : string) (st : ClientState) :
  user data = None ->
  redirectUrl data = Some url ->
  url <> "" ->
  pushed (registerWithClinic getDashboardByRole (Js.Resolved data) st)
  = pushed st ++ [url]
  /\ (occurs_in "/auth/" url ->
      pushed (verifyOTP getDashboardByRole (Js.Resolved data) st)
      = pushed st ++ [LOGIN_PATH]).
Proof.
  intros Hu Hr Hne. split.
  - unfold registerWithClinic, useMutation. rewrite Hu, Hr.
    apply truthy_str_iff in Hne. cbn [Js.truthy_opt]. rewrite Hne. reflexivity.
  - intros Hocc. apply includes_true in Hocc.
    unfold verifyOTP, useMutation, andThen. cbn [toast.success router.push pushed].
    rewrite invalidateQueries_pushed, Hr, Hu.
    rewrite getRedirectPath_fallthrough; [reflexivity|].
    rewrite Hocc. apply andb_false_r.
Qed.

Lemma registerWithClinic_does_not_filter_redirect_witness :
  pushed (registerWithClinic example_dashboards
            (Js.Resolved (mkAuthResponse None None (Some "/auth/verify-email") None))
            (mkClientState ∅ [] []))
  = ["/auth/verify-email"]
  /\ pushed (verifyOTP example_dashboards
               (Js.Resolved (mkAuthResponse None None (Some "/auth/verify-email") None))
               (mkClientState ∅ [] []))
     = ["/auth/login"].
Proof.
  destruct (registerWithClinic_does_not_filter_redirect example_dashboards
              (mkAuthResponse None None (Some "/auth/verify-email") None)
              "/auth/verify-email" (mkClientState ∅ [] [])
              eq_refl eq_refl ltac:(discriminate)) as [Hclinic Hotp].
  split; [exact Hclinic|].
  apply Hotp. exists "", "verify-email". reflexivity.
Defined.

(** X10: The four flows that sign in through the resolver ([verifyOTP],
    [socialLogin], [verifyMagicLink], [facebookLogin]) treat a response
    alike: they end in the same cache and push the same path, and differ
    in the text of the toast only.  A Google login always has a user, so
    it never pushes the login path for want of a role. *)
Theorem sign_in_flows_agree
    (getDashboardByRole : Role -> string) (data : AuthResponse) (st : ClientState) :
  (forall flow,
     List.In flow [socialLogin getDashboardByRole; verifyMagicLink getDashboardByRole;
                   facebookLogin getDashboardByRole] ->
     cache (flow (Js.Resolved data) st)
     = cache (verifyOTP getDashboardByRole (Js.Resolved data) st)
     /\ pushed (flow (Js.Resolved data) st)
        = pushed (verifyOTP getDashboardByRole (Js.Resolved data) st)
     /\ exists t, toasts (flow (Js.Resolved data) st)
                  = toasts st ++ [mkToast Success (Some t)])
  /\ (forall g : GoogleLoginResponse,
        pushed (googleLogin getDashboardByRole (Js.Resolved g) st)
        = pushed st ++ [getDashboardByRole (g_role g)]
        \/ (g_redirectUrl g
            = Some (getRedirectPath getDashboardByRole (Some (Some (g_role g)))
                      (g_redirectUrl g))
            /\ pushed (googleLogin getDashboardByRole (Js.Resolved g) st)
               = pushed st
                 ++ [getRedirectPath getDashboardByRole (Some (Some (g_role g)))
                       (g_redirectUrl g)])).
Proof.
  split.
  - intros flow Hin. cbn [List.In] in Hin.
    destruct Hin as [<- | [<- | [<- | []]]];
      (split; [reflexivity | split; [reflexivity | eexists; reflexivity]]).
  - intros g.
    destruct (getRedirectPath_result_cases getDashboardByRole
                (Some (Some (g_role g))) (g_redirectUrl g))
      as [(Hurl & _) | [(r & Hr & Hp) | (Hr & _)]].
    + right. split; [exact Hurl | reflexivity].
    + left. cbn in Hr. injection Hr as <-.
      unfold googleLogin, useMutation, andThen.
      cbn [toast.success router.push pushed].
      rewrite invalidateQueries_pushed, Hp. reflexivity.
    + discriminate Hr.
Qed.

Lemma sign_in_flows_agree_witness :
  pushed (facebookLogin example_dashboards
            (Js.Resolved (mkAuthResponse None None None None)) example_state)
  = pushed (verifyOTP example_dashboards
              (Js.Resolved (mkAuthResponse None None None None)) example_state).
Proof.
  apply (proj1 (sign_in_flows_agree example_dashboards
                  (mkAuthResponse None None None None) example_state)
           (facebookLogin example_dashboards)).
  cbn [List.In]. right. right. left. reflexivity.
Defined.

(** ** What a failure shows *)

(** X11: Every operation but logout shows the message of the error itself when
    the error has a non-empty one; logout never does. *)
Theorem failure_shows_the_error_message
    (getDashboardByRole : Role -> string) (op : Operation) (msg : string)
    (st : ClientState) :
  msg <> "" ->
  (op <> Logout ->
   run_rejected getDashboardByRole op (Js.Error msg) st
   = only_error_toast (Some msg) st)
  /\ (forall t, List.In t (toasts (run_rejected getDashboardByRole Logout (Js.Error msg) st)) ->
      List.In t (toasts st)
      \/ t = mkToast Success (Some "Logged out successfully")
      \/ t = mkToast Failure (Some "Logged out locally, but server logout failed")).
Proof.
  intros Hne. split.
  - intros Hop. destruct msg as [|c msg]; [congruence|].
    destruct op; try congruence; reflexivity.
  - intros t. cbn [run_rejected]. unfold logoutMutation.
    rewrite logout_mutationFn_rejected.
    destruct (Js.includes msg "401" || Js.includes msg "Session"
              || Js.includes msg "session");
      cbn [useMutation]; rewrite ?logout_onSuccess_eq, ?logout_onError_eq;
      cbn [logged_out_locally toasts]; rewrite in_app_iff; cbn [List.In];
      intuition auto.
Qed.

Lemma failure_shows_the_error_message_witness :
  run_rejected example_dashboards VerifyOTP (Js.Error "OTP expired") example_state
  = only_error_toast (Some "OTP expired") example_state.
Proof.
  apply (proj1 (failure_shows_the_error_message example_dashboards VerifyOTP
                  "OTP expired" example_state ltac:(discriminate))).
  discriminate.
Defined.

(** X12: What is shown when the thrown value is not an error with a
    message.  Login, registration and the termination of all sessions
    ([error.message || default]) show a non-empty text for every thrown
    value but [null] and [undefined], for which the read of the message
    throws and nothing is shown.  The operations that pass [error.message]
    on as it is (request of an OTP, change of password, OTP status, OTP
    invalidation, e-mail verification, Facebook login) show a toast
    without text for a value without message, the message of an object
    that has one, an empty text for an error with an empty message, and
    nothing for [null] and [undefined].  The operations that test
    [instanceof Error] first show their own non-empty text for every value
    that is not an error, [null] and [undefined] included. *)
Theorem failure_texts_without_message
    (getDashboardByRole : Role -> string) (op : Operation) (st : ClientState) :
  (List.In op [Login; Register; TerminateAllSessions] ->
   (forall e, e <> Js.Nullish ->
      exists t,
        run_rejected getDashboardByRole op e st = only_error_toast (Some t) st
        /\ t <> "")
   /\ run_rejected getDashboardByRole op Js.Nullish st = st)
  /\ (List.In op [RequestOTP; ChangePassword; CheckOTPStatus; InvalidateOTP;
                  VerifyEmail; FacebookLogin] ->
      run_rejected getDashboardByRole op Js.NotAnError st = only_error_toast None st
      /\ run_rejected getDashboardByRole op (Js.Error "") st
         = only_error_toast (Some "") st
      /\ (forall m, run_rejected getDashboardByRole op (Js.Plain m) st
                    = only_error_toast (Some m) st)
      /\ run_rejected getDashboardByRole op Js.Nullish st = st)
  /\ (List.In op [GoogleLogin; RegisterWithClinic; VerifyOTP; ForgotPassword;
                  ResetPassword; SocialLogin; RequestMagicLink; VerifyMagicLink] ->
      forall e, Js.instanceof_Error e = false ->
        exists t,
          run_rejected getDashboardByRole op e st = only_error_toast (Some t) st
          /\ t <> "").
Proof.
  split; [|split].
  - cbn [List.In]. intros [<- | [<- | [<- | []]]]; (split; [|reflexivity]);
      intros [[|c msg]| | |[|c msg]] Hne; try congruence;
      eexists; (split; [reflexivity | discriminate]).
  - cbn [List.In].
    intros [<- | [<- | [<- | [<- | [<- | [<- | []]]]]]];
      (split; [reflexivity|]); (split; [reflexivity|]);
      (split; [intros m; reflexivity | reflexivity]).
  - cbn [List.In].
    intros [<- | [<- | [<- | [<- | [<- | [<- | [<- | [<- | []]]]]]]]]
      [msg| | |msg] Hi; try discriminate Hi;
      eexists; (split; [reflexivity | discriminate]).
Qed.

Lemma failure_texts_without_message_witness :
  run_rejected example_dashboards ChangePassword Js.NotAnError example_state
  = only_error_toast None example_state
  /\ run_rejected example_dashboards ChangePassword (Js.Plain "Custom") example_state
     = only_error_toast (Some "Custom") example_state
  /\ run_rejected example_dashboards Login Js.Nullish example_state = example_state
  /\ (exists t,
        run_rejected example_dashboards Login (Js.Error "") example_state
        = only_error_toast (Some t) example_state
        /\ t <> "")
  /\ (exists t,
        run_rejected example_dashboards VerifyOTP Js.Nullish example_state
        = only_error_toast (Some t) example_state
        /\ t <> "").
Proof.
  pose proof (failure_texts_without_message example_dashboards ChangePassword
                example_state) as (_ & Hdirect & _).
  pose proof (failure_texts_without_message example_dashboards Login
                example_state) as (Hdefault & _).
  pose proof (failure_texts_without_message example_dashboards VerifyOTP
                example_state) as (_ & _ & Hguarded).
  assert (Hchange : List.In ChangePassword
                      [RequestOTP; ChangePassword; CheckOTPStatus; InvalidateOTP;
                       VerifyEmail; FacebookLogin])
    by (cbn [List.In]; right; left; reflexivity).
  assert (Hlogin : List.In Login [Login; Register; TerminateAllSessions])
    by (cbn [List.In]; left; reflexivity).
  split; [|split; [|split; [|split]]].
  - apply (proj1 (Hdirect Hchange)).
  - apply (proj1 (proj2 (proj2 (Hdirect Hchange)))).
  - apply (proj2 (Hdefault Hlogin)).
  - apply (proj1 (Hdefault Hlogin)). discriminate.
  - apply Hguarded; [cbn [List.In]; right; right; left; reflexivity | reflexivity].
Defined.

(** * Further properties of the schemas *)

(** ** A rejection always says why *)

(** A parse is consistent when it is valid exactly if it raised no
    issue. *)
Definition consistent {A : Type} (r : z.Return A) : Prop :=
  match fst r with
  | z.OK _ => z.issues r = []
  | _ => z.issues r <> []
  end.

Lemma consistent_safeParse {A : Type} (r : z.Return A) :
  consistent r ->
  (forall iss, z.safeParse r = z.failure iss -> iss <> [])
  /\ (forall a, z.safeParse r = z.success a -> z.issues r = [])
  /\ (z.issues r = [] -> exists a, z.safeParse r = z.success a).
Proof.
  unfold consistent, z.issues.
  destruct r as [[a|a|] iss]; cbn; intros H; repeat split;
    try (intros ? E; congruence); try (intros E; congruence); eauto.
Qed.

Lemma consistent_object {A : Type} (build : A) : consistent (z.object build).
Proof. reflexivity. Qed.

Lemma consistent_and_field {A B : Type} (rf : z.Return (A -> B)) (ra : z.Return A) :
  consistent rf -> consistent ra -> consistent (rf <*> ra).
Proof.
  unfold consistent, z.and_field, z.issues. cbn [fst snd].
  destruct (fst rf), (fst ra); intros Hf Ha;
    try (rewrite Hf, Ha; reflexivity);
    intros Happ; apply app_eq_nil in Happ as [? ?]; contradiction.
Qed.

Lemma consistent_field {A : Type} (key : string) (schema : z.Schema A)
    (input : gmap string Js.Value) :
  consistent (schema (z.get input key)) -> consistent (z.field key schema input).
Proof.
  unfold consistent. rewrite field_status, field_issues.
  destruct (fst (schema (z.get input key))); intros H.
  - rewrite H. reflexivity.
  - intros Hm. apply map_eq_nil in Hm. contradiction.
  - intros Hm. apply map_eq_nil in Hm. contradiction.
Qed.

Lemma consistent_refine {A : Type} (r : z.Return A) (pred : A -> bool)
    (msg : string) (at_path : list string) :
  consistent r -> consistent (z.refine r pred msg at_path).
Proof.
  unfold consistent, z.issues.
  destruct r as [[a|a|] iss]; cbn; try (destruct (pred a)); cbn; intros H;
    try assumption; intros Happ; apply app_eq_nil in Happ as [_ Happ];
    discriminate Happ.
Qed.

Lemma consistent_string (isEmail : string -> bool) (checks : list z.Check) (v : Js.Value) :
  consistent (z.string isEmail checks v).
Proof.
  unfold consistent, z.string, z.issues.
  destruct v; cbn; try discriminate.
  destruct (List.filter _ checks); cbn; [reflexivity | discriminate].
Qed.

Lemma consistent_boolean (v : Js.Value) : consistent (z.boolean v).
Proof. destruct v; cbn; try discriminate; reflexivity. Qed.

Lemma consistent_number (v : Js.Value) : consistent (z.number v).
Proof. destruct v; cbn; try discriminate; reflexivity. Qed.

Lemma consistent_enum (values : list string) (v : Js.Value) :
  consistent (z.enum values v).
Proof.
  unfold consistent, z.enum, z.issues.
  destruct v; cbn; try discriminate.
  destruct (existsb _ values); cbn; [reflexivity | discriminate].
Qed.

Lemma consistent_optional {A : Type} (schema : z.Schema A) (v : Js.Value) :
  consistent (schema v) -> consistent (z.optional schema v).
Proof.
  unfold consistent, z.optional, z.issues.
  destruct v; try reflexivity; destruct (schema _) as [[a|a|] iss]; cbn; tauto.
Qed.

Lemma consistent_default {A : Type} (schema : z.Schema A) (d v : Js.Value) :
  (forall v', consistent (schema v')) -> consistent (z.default schema d v).
Proof. intros H. rewrite default_unfold. apply H. Qed.

Lemma consistent_register_terms (v : Js.Value) : consistent (register_terms v).
Proof. unfold register_terms. apply consistent_refine, consistent_boolean. Qed.

Create HintDb consistent.

#[local] Hint Resolve consistent_object consistent_and_field consistent_field
  consistent_refine consistent_string consistent_boolean consistent_number
  consistent_enum consistent_optional consistent_default consistent_register_terms
  : consistent.

(** A parse that reports faithfully: a failure carries at least one issue,
    and there is no issue exactly when the parse succeeds. *)
Definition reports_faithfully {A : Type} (r : z.Return A) : Prop :=
  (forall iss, z.safeParse r = z.failure iss -> iss <> [])
  /\ (forall a, z.safeParse r = z.success a -> z.issues r = [])
  /\ (z.issues r = [] -> exists a, z.safeParse r = z.success a).

(** X13: Each of the seven schemas, on every input, fails with at least one
    issue and succeeds exactly when it raised none: a form never gets a
    rejection without an error to show. *)
Theorem schemas_report_faithfully
    (isEmail : string -> bool) (input : gmap string Js.Value) :
  reports_faithfully (requestOtpSchema isEmail input)
  /\ reports_faithfully (passwordLoginSchema isEmail input)
  /\ reports_faithfully (otpVerifySchema isEmail input)
  /\ reports_faithfully (registerSchema isEmail input)
  /\ reports_faithfully (forgotPasswordSchema isEmail input)
  /\ reports_faithfully (resetPasswordSchema isEmail input)
  /\ reports_faithfully (changePasswordSchema isEmail input).
Proof.
  repeat split;
    apply consistent_safeParse;
    unfold requestOtpSchema, passwordLoginSchema, otpVerifySchema, registerSchema,
      registerObject, forgotPasswordSchema, resetPasswordSchema, resetPasswordObject,
      changePasswordSchema, changePasswordObject, register_password,
      changePassword_newPassword, createRoleEnum;
    auto 30 with consistent.
Qed.

(** ** What each schema accepts *)

Lemma and_field_OK {A B : Type} (rf : z.Return (A -> B)) (ra : z.Return A)
    (f : A -> B) (a : A) :
  fst rf = z.OK f -> fst ra = z.OK a -> fst (rf <*> ra) = z.OK (f a).
Proof. unfold z.and_field. cbn [fst]. intros -> ->. reflexivity. Qed.

Lemma refine_OK {A : Type} (r : z.Return A) (pred : A -> bool)
    (msg : string) (at_path : list string) (a : A) :
  fst r = z.OK a -> pred a = true -> fst (z.refine r pred msg at_path) = z.OK a.
Proof.
  destruct r as [[a'|a'|] iss]; cbn; intros H Hp; try discriminate H.
  injection H as ->. rewrite Hp. reflexivity.
Qed.

Lemma field_OK {A : Type} (key : string) (schema : z.Schema A)
    (input : gmap string Js.Value) (v : Js.Value) (a : A) :
  z.get input key = v -> fst (schema v) = z.OK a ->
  fst (z.field key schema input) = z.OK a.
Proof. intros <- H. rewrite field_status. exact H. Qed.

Lemma string_OK (isEmail : string -> bool) (checks : list z.Check) (s : string) :
  forallb (z.check_passes isEmail s) checks = true ->
  fst (z.string isEmail checks (Js.Str s)) = z.OK s.
Proof. intros H. rewrite string_status, H. reflexivity. Qed.

Lemma enum_OK (values : list string) (s : string) :
  List.In s values -> fst (z.enum values (Js.Str s)) = z.OK s.
Proof.
  intros Hin. cbn.
  destruct (existsb (String.eqb s) values) eqn:Hex; [reflexivity|].
  assert (existsb (String.eqb s) values = true); [|congruence].
  apply existsb_exists. exists s. split; [exact Hin | apply String.eqb_refl].
Qed.

Lemma optional_boolean_OK_inv (v : Js.Value) (o : option bool) :
  fst (z.optional z.boolean v) = z.OK o ->
  (v = Js.Undefined /\ o = None) \/ (exists b, v = Js.Bool b /\ o = Some b).
Proof.
  destruct v as [| |b|n| |s]; cbn; intros H; try discriminate H;
    injection H as <-; [left | right]; eauto.
Qed.

Lemma strong_password_forallb (isEmail : string -> bool) (s : string) :
  forallb (z.check_passes isEmail s) strong_password_checks = true
  <-> (8 <= String.length s)%nat
      /\ has_char_in uppercase_letters s
      /\ has_char_in lowercase_letters s
      /\ has_char_in digits s
      /\ has_char_outside (uppercase_letters ++ lowercase_letters ++ digits) s.
Proof.
  rewrite <- (proj1 (strong_password_characterised isEmail s)).
  rewrite string_safeParse.
  destruct (forallb _ strong_password_checks); split; congruence.
Qed.

(** The strong-password conditions on a string. *)
Definition strong (s : string) : Prop :=
  (8 <= String.length s)%nat
  /\ has_char_in uppercase_letters s
  /\ has_char_in lowercase_letters s
  /\ has_char_in digits s
  /\ has_char_outside (uppercase_letters ++ lowercase_letters ++ digits) s.

Section Acceptance.

Variable isEmail : string -> bool.

Ltac object_fields H :=
  repeat (apply and_field_OK_inv in H as (? & ? & H & ? & ?));
  apply object_OK_inv in H; subst;
  repeat match goal with
         | H : fst (z.field _ _ _) = z.OK _ |- _ => rewrite field_status in H
         end;
  repeat match goal with
         | H : fst (z.default _ _ _) = _ |- _ => rewrite default_unfold in H
         end.

Ltac keys_OK :=
  repeat match goal with
         | |- fst (_ <*> _) = z.OK _ => apply and_field_OK
         | |- fst (z.object _) = z.OK _ => reflexivity
         end.

(** X14: The login form is accepted exactly when the e-mail is a string that
    passes the e-mail test, the password a string of at least 8
    characters, and [rememberMe] a boolean or left out; the data is the
    input. *)
Theorem passwordLoginSchema_accepts_iff
    (input : gmap string Js.Value) (data : PasswordLoginFormData) :
  z.safeParse (passwordLoginSchema isEmail input) = z.success data
  <-> z.get input "email" = Js.Str (login_email data)
      /\ isEmail (login_email data) = true
      /\ z.get input "password" = Js.Str (login_password data)
      /\ (8 <= String.length (login_password data))%nat
      /\ ((z.get input "rememberMe" = Js.Undefined /\ login_rememberMe data = None)
          \/ exists b, z.get input "rememberMe" = Js.Bool b
                       /\ login_rememberMe data = Some b).
Proof.
  rewrite safeParse_success. unfold passwordLoginSchema. split.
  - intros H. object_fields H.
    cbn [login_email login_password login_rememberMe].
    repeat match goal with
           | H : fst (z.string _ _ _) = z.OK _ |- _ =>
               apply string_OK_inv in H as [? H]; cbn [forallb z.check_passes] in H;
               rewrite andb_true_r in H
           | H : fst (z.optional _ _) = z.OK _ |- _ => apply optional_boolean_OK_inv in H
           end.
    repeat split; try assumption. apply Nat.leb_le. assumption.
  - destruct data as [e p r]. cbn [login_email login_password login_rememberMe].
    intros (He & Hv & Hp & Hlen & Hr). keys_OK.
    + eapply field_OK; [exact He|]. apply string_OK. cbn [forallb z.check_passes]. rewrite Hv. reflexivity.
    + eapply field_OK; [exact Hp|]. apply string_OK. cbn [forallb z.check_passes].
      apply Nat.leb_le in Hlen. rewrite Hlen. reflexivity.
    + destruct Hr as [[Hu ->] | (b & Hb & ->)];
        (eapply field_OK; [eassumption | reflexivity]).
Qed.

(** X15: The OTP form is accepted exactly when the e-mail passes the e-mail
    test and the code is a string of exactly 6 characters, of any kind:
    nothing checks that they are digits. *)
Theorem otpVerifySchema_accepts_iff
    (input : gmap string Js.Value) (data : OtpVerifyFormData) :
  z.safeParse (otpVerifySchema isEmail input) = z.success data
  <-> z.get input "email" = Js.Str (otp_email data)
      /\ isEmail (otp_email data) = true
      /\ z.get input "otp" = Js.Str (otp_otp data)
      /\ String.length (otp_otp data) = 6%nat
      /\ ((z.get input "rememberMe" = Js.Undefined /\ otp_rememberMe data = None)
          \/ exists b, z.get input "rememberMe" = Js.Bool b
                       /\ otp_rememberMe data = Some b).
Proof.
  rewrite safeParse_success. unfold otpVerifySchema. split.
  - intros H. object_fields H.
    cbn [otp_email otp_otp otp_rememberMe].
    repeat match goal with
           | H : fst (z.string _ _ _) = z.OK _ |- _ =>
               apply string_OK_inv in H as [? H]; cbn [forallb z.check_passes] in H;
               rewrite andb_true_r in H
           | H : fst (z.optional _ _) = z.OK _ |- _ => apply optional_boolean_OK_inv in H
           end.
    repeat split; try assumption. apply Nat.eqb_eq. assumption.
  - destruct data as [e o r]. cbn [otp_email otp_otp otp_rememberMe].
    intros (He & Hv & Ho & Hlen & Hr). keys_OK.
    + eapply field_OK; [exact He|]. apply string_OK. cbn [forallb z.check_passes]. rewrite Hv. reflexivity.
    + eapply field_OK; [exact Ho|]. apply string_OK. cbn [forallb z.check_passes].
      rewrite Hlen. reflexivity.
    + destruct Hr as [[Hu ->] | (b & Hb & ->)];
        (eapply field_OK; [eassumption | reflexivity]).
Qed.

(** X16: The two one-field schemas, for the request of an OTP and for a
    forgotten password, are the same validator: they accept exactly a
    string e-mail that passes the e-mail test. *)
Theorem email_only_schemas_accept_iff (input : gmap string Js.Value) (e : string) :
  requestOtpSchema isEmail input = forgotPasswordSchema isEmail input
  /\ (z.safeParse (requestOtpSchema isEmail input) = z.success e
      <-> z.get input "email" = Js.Str e /\ isEmail e = true).
Proof.
  split; [reflexivity|].
  rewrite safeParse_success. unfold requestOtpSchema. split.
  - intros H. object_fields H.
    match goal with
    | H : fst (z.string _ _ _) = z.OK _ |- _ =>
        apply string_OK_inv in H as [? H]; cbn [forallb z.check_passes] in H;
        rewrite andb_true_r in H
    end.
    split; assumption.
  - intros [He Hv].
    apply (and_field_OK _ _ (fun email : string => email) e); [reflexivity|].
    eapply field_OK; [exact He|]. apply string_OK. cbn [forallb z.check_passes]. rewrite Hv. reflexivity.
Qed.

End Acceptance.

Ltac invert_object H :=
  repeat (apply and_field_OK_inv in H as (? & ? & H & ? & ?));
  apply object_OK_inv in H; subst;
  repeat match goal with
         | H : fst (z.field _ _ _) = z.OK _ |- _ => rewrite field_status in H
         end;
  repeat match goal with
         | H : fst (z.default _ _ _) = _ |- _ => rewrite default_unfold in H
         end.

Ltac build_object :=
  repeat match goal with
         | |- fst (_ <*> _) = z.OK _ => apply and_field_OK
         | |- fst (z.object _) = z.OK _ => reflexivity
         end.

Lemma defaulted_Str (v : Js.Value) (d x : string) :
  defaulted v (Js.Str d) = Js.Str x
  <-> (v = Js.Undefined /\ x = d) \/ v = Js.Str x.
Proof.
  destruct v; cbn; split; intros H;
    try (destruct H as [[H1 H2] | H]); try discriminate; try congruence; auto.
  left. split; congruence.
Qed.

Lemma defaulted_Num (v : Js.Value) (d x : Z) :
  defaulted v (Js.Num d) = Js.Num x
  <-> (v = Js.Undefined /\ x = d) \/ v = Js.Num x.
Proof.
  destruct v; cbn; split; intros H;
    try (destruct H as [[H1 H2] | H]); try discriminate; try congruence; auto.
  left. split; congruence.
Qed.

Section AcceptanceOfPasswords.

Variable isEmail : string -> bool.

(** X17: The reset form is accepted exactly when the password is a string of at
    least 8 characters (no more is asked of it: not the character classes
    of a registration), the confirmation is the same string, and the token
    is a string, the empty one included. *)
Theorem resetPasswordSchema_accepts_iff
    (input : gmap string Js.Value) (data : ResetPasswordFormData) :
  z.safeParse (resetPasswordSchema isEmail input) = z.success data
  <-> z.get input "password" = Js.Str (reset_password data)
      /\ (8 <= String.length (reset_password data))%nat
      /\ z.get input "confirmPassword" = Js.Str (reset_confirmPassword data)
      /\ reset_confirmPassword data = reset_password data
      /\ z.get input "token" = Js.Str (reset_token data).
Proof.
  rewrite safeParse_success. unfold resetPasswordSchema. split.
  - intros H. apply refine_OK_inv in H as [H Heq].
    apply String.eqb_eq in Heq.
    unfold resetPasswordObject in H. invert_object H.
    cbn [reset_password reset_confirmPassword reset_token] in *.
    repeat match goal with
           | H : fst (z.string _ _ _) = z.OK _ |- _ =>
               apply string_OK_inv in H as [? H]; cbn [forallb z.check_passes] in H;
               try rewrite andb_true_r in H
           end.
    repeat split; try assumption; try congruence. apply Nat.leb_le. assumption.
  - destruct data as [p c t]. cbn [reset_password reset_confirmPassword reset_token].
    intros (Hp & Hlen & Hc & -> & Ht).
    apply refine_OK; [|apply String.eqb_refl].
    unfold resetPasswordObject. build_object.
    + eapply field_OK; [exact Hp|]. apply string_OK. cbn [forallb z.check_passes].
      apply Nat.leb_le in Hlen. rewrite Hlen. reflexivity.
    + eapply field_OK; [exact Hc|]. apply string_OK. reflexivity.
    + eapply field_OK; [exact Ht|]. apply string_OK. reflexivity.
Qed.

(** X18: The change-password form is accepted exactly when the current password
    is a non-empty string, the new password is strong, and the
    confirmation is the new password; nothing asks the new password to
    differ from the current one. *)
Theorem changePasswordSchema_accepts_iff
    (input : gmap string Js.Value) (data : ChangePasswordFormData) :
  z.safeParse (changePasswordSchema isEmail input) = z.success data
  <-> z.get input "currentPassword" = Js.Str (change_currentPassword data)
      /\ change_currentPassword data <> ""
      /\ z.get input "newPassword" = Js.Str (change_newPassword data)
      /\ strong (change_newPassword data)
      /\ z.get input "confirmPassword" = Js.Str (change_confirmPassword data)
      /\ change_confirmPassword data = change_newPassword data.
Proof.
  rewrite safeParse_success. unfold changePasswordSchema. split.
  - intros H. apply refine_OK_inv in H as [H Heq].
    apply String.eqb_eq in Heq.
    unfold changePasswordObject in H. invert_object H.
    cbn [change_currentPassword change_newPassword change_confirmPassword] in *.
    match goal with
    | H : fst (changePassword_newPassword _ _) = z.OK _ |- _ =>
        rewrite changePassword_newPassword_checks in H;
        apply string_OK_inv in H as [? H]; apply strong_password_forallb in H
    end.
    repeat match goal with
           | H : fst (z.string _ _ _) = z.OK _ |- _ =>
               apply string_OK_inv in H as [? H]; cbn [forallb z.check_passes] in H;
               try rewrite andb_true_r in H
           end.
    split; [assumption|]. split.
    { match goal with
      | H : (1 <=? String.length ?s)%nat = true |- ?s <> "" =>
          intros ->; discriminate H
      end. }
    split; [assumption|]. split; [assumption|]. split; [assumption | congruence].
  - destruct data as [cur p c].
    cbn [change_currentPassword change_newPassword change_confirmPassword].
    intros (Hcur & Hne & Hp & Hstrong & Hc & ->).
    apply refine_OK; [|apply String.eqb_refl].
    unfold changePasswordObject. build_object.
    + eapply field_OK; [exact Hcur|]. apply string_OK. cbn [forallb z.check_passes].
      destruct cur; [congruence | reflexivity].
    + eapply field_OK; [exact Hp|]. rewrite changePassword_newPassword_checks.
      apply string_OK. apply strong_password_forallb. exact Hstrong.
    + eapply field_OK; [exact Hc|]. apply string_OK. reflexivity.
Qed.

(** X19: The registration form is accepted exactly when: the e-mail passes the
    e-mail test; the password is strong and the confirmation equal to it;
    the first and last name have at least 2 characters and the phone at
    least 10; the gender is left out (then [MALE]) or one of the three
    listed; the role is left out (then [PATIENT]) or one of the five roles;
    the age is left out (then 18) or a number; and [terms] is [true].  The
    data is the input with the defaults filled in. *)
Theorem registerSchema_accepts_iff
    (input : gmap string Js.Value) (data : RegisterFormData) :
  z.safeParse (registerSchema isEmail input) = z.success data
  <-> z.get input "email" = Js.Str (reg_email data)
      /\ isEmail (reg_email data) = true
      /\ z.get input "password" = Js.Str (reg_password data)
      /\ strong (reg_password data)
      /\ z.get input "confirmPassword" = Js.Str (reg_confirmPassword data)
      /\ reg_confirmPassword data = reg_password data
      /\ z.get input "firstName" = Js.Str (reg_firstName data)
      /\ (2 <= String.length (reg_firstName data))%nat
      /\ z.get input "lastName" = Js.Str (reg_lastName data)
      /\ (2 <= String.length (reg_lastName data))%nat
      /\ z.get input "phone" = Js.Str (reg_phone data)
      /\ (10 <= String.length (reg_phone data))%nat
      /\ ((z.get input "gender" = Js.Undefined /\ reg_gender data = "MALE")
          \/ z.get input "gender" = Js.Str (reg_gender data))
      /\ List.In (reg_gender data) ["MALE"; "FEMALE"; "OTHER"]
      /\ ((z.get input "role" = Js.Undefined /\ reg_role data = "PATIENT")
          \/ z.get input "role" = Js.Str (reg_role data))
      /\ (exists r : Role, reg_role data = Role_value r)
      /\ ((z.get input "age" = Js.Undefined /\ reg_age data = 18%Z)
          \/ z.get input "age" = Js.Num (reg_age data))
      /\ z.get input "terms" = Js.Bool true
      /\ reg_terms data = true.
Proof.
  rewrite safeParse_success. unfold registerSchema. split.
  - intros H. apply refine_OK_inv in H as [H Heq].
    apply String.eqb_eq in Heq.
    unfold registerObject in H. invert_object H.
    cbn [reg_email reg_password reg_confirmPassword reg_firstName reg_lastName
         reg_phone reg_gender reg_role reg_age reg_terms] in *.
    match goal with
    | H : fst (register_password _ _) = z.OK _ |- _ =>
        rewrite register_password_checks in H;
        apply string_OK_inv in H as [? H]; apply strong_password_forallb in H
    end.
    repeat match goal with
           | H : fst (z.string _ _ _) = z.OK _ |- _ =>
               apply string_OK_inv in H as [? H]; cbn [forallb z.check_passes] in H;
               try rewrite andb_true_r in H; try apply Nat.leb_le in H
           | H : fst (z.enum _ _) = z.OK _ |- _ => apply enum_OK_inv in H as [H ?]
           | H : fst (createRoleEnum _) = z.OK _ |- _ => apply enum_OK_inv in H as [H ?]
           | H : fst (z.number _) = z.OK _ |- _ => apply number_OK_inv in H
           | H : fst (register_terms _) = z.OK _ |- _ =>
               apply register_terms_OK_inv in H as [? ?]
           | H : defaulted _ (Js.Str _) = Js.Str _ |- _ => apply defaulted_Str in H
           | H : defaulted _ (Js.Num _) = Js.Num _ |- _ => apply defaulted_Num in H
           end.
    subst.
    do 12 (split; [first [assumption | congruence]|]).
    split; [assumption|]. split; [assumption|]. split; [assumption|].
    split; [apply Role_value_listed; assumption|].
    split; [assumption|]. split; [assumption | reflexivity].
  - destruct data as [e p c f l ph g r a t].
    cbn [reg_email reg_password reg_confirmPassword reg_firstName reg_lastName
         reg_phone reg_gender reg_role reg_age reg_terms].
    intros (He & Hv & Hp & Hstrong & Hc & -> & Hf & Hlf & Hl & Hll & Hph & Hlph
            & Hg & Hgs & Hr & Hrs & Ha & Ht & ->).
    apply refine_OK; [|apply String.eqb_refl].
    unfold registerObject. build_object.
    + eapply field_OK; [exact He|]. apply string_OK. cbn [forallb z.check_passes].
      rewrite Hv. reflexivity.
    + eapply field_OK; [exact Hp|]. rewrite register_password_checks.
      apply string_OK. apply strong_password_forallb. exact Hstrong.
    + eapply field_OK; [exact Hc|]. apply string_OK. reflexivity.
    + eapply field_OK; [exact Hf|]. apply string_OK. cbn [forallb z.check_passes].
      apply Nat.leb_le in Hlf. rewrite Hlf. reflexivity.
    + eapply field_OK; [exact Hl|]. apply string_OK. cbn [forallb z.check_passes].
      apply Nat.leb_le in Hll. rewrite Hll. reflexivity.
    + eapply field_OK; [exact Hph|]. apply string_OK. cbn [forallb z.check_passes].
      apply Nat.leb_le in Hlph. rewrite Hlph. reflexivity.
    + eapply field_OK; [reflexivity|]. rewrite default_unfold.
      apply (proj2 (defaulted_Str _ "MALE" g)) in Hg. rewrite Hg.
      apply enum_OK. exact Hgs.
    + eapply field_OK; [reflexivity|]. rewrite default_unfold.
      apply (proj2 (defaulted_Str _ "PATIENT" r)) in Hr.
      change (Role_value PATIENT) with "PATIENT". rewrite Hr.
      apply enum_OK. apply Role_value_listed in Hrs. exact Hrs.
    + eapply field_OK; [reflexivity|]. rewrite default_unfold.
      apply (proj2 (defaulted_Num _ 18 a)) in Ha. rewrite Ha. reflexivity.
    + eapply field_OK; [exact Ht|]. reflexivity.
Qed.

End AcceptanceOfPasswords.

(** ** Across the schemas *)

Lemma get_insert_ne (input : gmap string Js.Value) (k key : string) (v : Js.Value) :
  k <> key -> z.get (<[k := v]> input) key = z.get input key.
Proof. intros Hne. unfold z.get. rewrite lookup_insert_ne by exact Hne. reflexivity. Qed.

Lemma field_insert_ne {A : Type} (key k : string) (schema : z.Schema A)
    (input : gmap string Js.Value) (v : Js.Value) :
  k <> key -> z.field key schema (<[k := v]> input) = z.field key schema input.
Proof. intros Hne. unfold z.field. rewrite get_insert_ne by exact Hne. reflexivity. Qed.

(** X20: The e-mail and password of an accepted registration are accepted by
    the login form, and the password, confirmed, by the reset form with
    any token: what the strong password asks for covers what these two
    forms ask for. *)
Theorem registered_credentials_pass_login_and_reset
    (isEmail : string -> bool) (input : gmap string Js.Value)
    (data : RegisterFormData) (resetToken : string) :
  z.safeParse (registerSchema isEmail input) = z.success data ->
  z.safeParse
    (passwordLoginSchema isEmail
       (<["email" := Js.Str (reg_email data)]>
          (<["password" := Js.Str (reg_password data)]> ∅)))
  = z.success (mkPasswordLoginFormData (reg_email data) (reg_password data) None)
  /\ z.safeParse
       (resetPasswordSchema isEmail
          (<["password" := Js.Str (reg_password data)]>
             (<["confirmPassword" := Js.Str (reg_password data)]>
                (<["token" := Js.Str resetToken]> ∅))))
     = z.success (mkResetPasswordFormData (reg_password data) (reg_password data)
                    resetToken).
Proof.
  intros H. apply registerSchema_accepts_iff in H
    as (_ & Hv & _ & (Hlen & _) & _).
  split.
  - apply passwordLoginSchema_accepts_iff.
    cbn [login_email login_password login_rememberMe].
    split; [reflexivity|]. split; [exact Hv|]. split; [reflexivity|].
    split; [exact Hlen|]. left. split; reflexivity.
  - apply resetPasswordSchema_accepts_iff.
    cbn [reset_password reset_confirmPassword reset_token].
    split; [reflexivity|]. split; [exact Hlen|]. repeat split.
Qed.

Lemma registered_credentials_pass_login_and_reset_witness :
  z.safeParse
    (passwordLoginSchema example_isEmail
       (<["email" := Js.Str "jo@example.com"]>
          (<["password" := Js.Str "Abcdef1!"]> ∅)))
  = z.success (mkPasswordLoginFormData "jo@example.com" "Abcdef1!" None).
Proof.
  apply (proj1 (registered_credentials_pass_login_and_reset example_isEmail
                  example_registration
                  (mkRegisterFormData "jo@example.com" "Abcdef1!" "Abcdef1!" "Jo" "Li"
                     "0123456789" "MALE" "PATIENT" 18 true)
                  "" ltac:(vm_compute; reflexivity))).
Defined.

(** X21: A key that a schema does not declare has no effect on its result,
    whatever its value. *)
Theorem schemas_ignore_undeclared_keys
    (isEmail : string -> bool) (input : gmap string Js.Value)
    (k : string) (v : Js.Value) :
  (~ List.In k ["email"; "password"; "confirmPassword"; "firstName"; "lastName";
                "phone"; "gender"; "role"; "age"; "terms"] ->
   registerSchema isEmail (<[k := v]> input) = registerSchema isEmail input)
  /\ (~ List.In k ["password"; "confirmPassword"; "token"] ->
      resetPasswordSchema isEmail (<[k := v]> input) = resetPasswordSchema isEmail input)
  /\ (~ List.In k ["currentPassword"; "newPassword"; "confirmPassword"] ->
      changePasswordSchema isEmail (<[k := v]> input)
      = changePasswordSchema isEmail input)
  /\ (~ List.In k ["email"; "password"; "rememberMe"] ->
      passwordLoginSchema isEmail (<[k := v]> input)
      = passwordLoginSchema isEmail input)
  /\ (~ List.In k ["email"; "otp"; "rememberMe"] ->
      otpVerifySchema isEmail (<[k := v]> input) = otpVerifySchema isEmail input)
  /\ (k <> "email" ->
      requestOtpSchema isEmail (<[k := v]> input) = requestOtpSchema isEmail input
      /\ forgotPasswordSchema isEmail (<[k := v]> input)
         = forgotPasswordSchema isEmail input).
Proof.
  split; [|split; [|split; [|split; [|split]]]]; intros Hk; [| | | | |split];
    unfold registerSchema, registerObject, resetPasswordSchema, resetPasswordObject,
      changePasswordSchema, changePasswordObject, passwordLoginSchema, otpVerifySchema,
      requestOtpSchema, forgotPasswordSchema;
    rewrite !field_insert_ne
      by (intros ->; apply Hk; first [reflexivity | cbn [List.In]; tauto]);
    reflexivity.
Qed.

Lemma schemas_ignore_undeclared_keys_witness :
  registerSchema example_isEmail (<["nickname" := Js.Str "J"]> example_registration)
  = registerSchema example_isEmail example_registration.
Proof.
  apply (proj1 (schemas_ignore_undeclared_keys example_isEmail example_registration
                  "nickname" (Js.Str "J"))).
  cbn [List.In]. intuition discriminate.
Defined.

(** ** The schemas on examples *)

Lemma schemas_report_faithfully_witness :
  z.issues (registerSchema example_isEmail ∅) <> []
  /\ z.issues (registerSchema example_isEmail example_registration) = [].
Proof.
  split.
  - destruct (schemas_report_faithfully example_isEmail ∅)
      as (_ & _ & _ & (Hfail & _) & _).
    apply Hfail. vm_compute. reflexivity.
  - destruct (schemas_report_faithfully example_isEmail example_registration)
      as (_ & _ & _ & (_ & Hok & _) & _).
    apply (Hok (mkRegisterFormData "jo@example.com" "Abcdef1!" "Abcdef1!" "Jo" "Li"
                  "0123456789" "MALE" "PATIENT" 18 true)).
    vm_compute. reflexivity.
Defined.

Lemma passwordLoginSchema_accepts_iff_witness :
  z.safeParse
    (passwordLoginSchema example_isEmail
       (<["email" := Js.Str "jo@example.com"]>
          (<["password" := Js.Str "abcdefgh"]>
             (<["rememberMe" := Js.Bool true]> ∅))))
  = z.success (mkPasswordLoginFormData "jo@example.com" "abcdefgh" (Some true)).
Proof.
  apply (proj2 (passwordLoginSchema_accepts_iff example_isEmail _ _)).
  cbn [login_email login_password login_rememberMe].
  split; [reflexivity|]. split; [reflexivity|]. split; [reflexivity|].
  split; [vm_compute; lia|]. right. exists true. split; reflexivity.
Defined.

Lemma otpVerifySchema_accepts_iff_witness :
  z.safeParse
    (otpVerifySchema example_isEmail
       (<["email" := Js.Str "jo@example.com"]> (<["otp" := Js.Str "abc-12"]> ∅)))
  = z.success (mkOtpVerifyFormData "jo@example.com" "abc-12" None).
Proof.
  apply (proj2 (otpVerifySchema_accepts_iff example_isEmail _ _)).
  cbn [otp_email otp_otp otp_rememberMe].
  repeat split. left. split; reflexivity.
Defined.

Lemma email_only_schemas_accept_iff_witness :
  z.safeParse (forgotPasswordSchema example_isEmail
                 (<["email" := Js.Str "jo@example.com"]> ∅))
  = z.success "jo@example.com".
Proof.
  destruct (email_only_schemas_accept_iff example_isEmail
              (<["email" := Js.Str "jo@example.com"]> ∅) "jo@example.com")
    as [Hsame Hiff].
  rewrite <- Hsame. apply (proj2 Hiff). split; reflexivity.
Defined.

Lemma resetPasswordSchema_accepts_iff_witness :
  z.safeParse
    (resetPasswordSchema example_isEmail
       (<["password" := Js.Str "abcdefgh"]>
          (<["confirmPassword" := Js.Str "abcdefgh"]>
             (<["token" := Js.Str ""]> ∅))))
  = z.success (mkResetPasswordFormData "abcdefgh" "abcdefgh" "").
Proof.
  apply (proj2 (resetPasswordSchema_accepts_iff example_isEmail _ _)).
  cbn [reset_password reset_confirmPassword reset_token].
  split; [reflexivity|]. split; [vm_compute; lia|]. repeat split.
Defined.

Lemma strong_example : strong "Abcdef1!".
Proof.
  split; [vm_compute; lia|].
  split; [exists "A"%char; split; vm_compute; tauto|].
  split; [exists "b"%char; split; vm_compute; tauto|].
  split; [exists "1"%char; split; vm_compute; tauto|].
  exists "!"%char. split; [vm_compute; tauto|].
  vm_compute. intuition discriminate.
Defined.

Lemma changePasswordSchema_accepts_iff_witness :
  z.safeParse
    (changePasswordSchema example_isEmail
       (<["currentPassword" := Js.Str "Abcdef1!"]>
          (<["newPassword" := Js.Str "Abcdef1!"]>
             (<["confirmPassword" := Js.Str "Abcdef1!"]> ∅))))
  = z.success (mkChangePasswordFormData "Abcdef1!" "Abcdef1!" "Abcdef1!").
Proof.
  apply (proj2 (changePasswordSchema_accepts_iff example_isEmail _ _)).
  cbn [change_currentPassword change_newPassword change_confirmPassword].
  split; [reflexivity|]. split; [discriminate|]. split; [reflexivity|].
  split; [exact strong_example|]. split; reflexivity.
Defined.

Lemma registerSchema_accepts_iff_witness :
  z.safeParse
    (registerSchema example_isEmail
       (<["role" := Js.Str "DOCTOR"]> (<["age" := Js.Num 41]> example_registration)))
  = z.success (mkRegisterFormData "jo@example.com" "Abcdef1!" "Abcdef1!" "Jo" "Li"
                 "0123456789" "MALE" "DOCTOR" 41 true).
Proof.
  apply (proj2 (registerSchema_accepts_iff example_isEmail _ _)).
  cbn [reg_email reg_password reg_confirmPassword reg_firstName reg_lastName
       reg_phone reg_gender reg_role reg_age reg_terms].
  split; [reflexivity|]. split; [reflexivity|]. split; [reflexivity|].
  split; [exact strong_example|]. split; [reflexivity|]. split; [reflexivity|].
  split; [reflexivity|]. split; [vm_compute; lia|].
  split; [reflexivity|]. split; [vm_compute; lia|].
  split; [reflexivity|]. split; [vm_compute; lia|].
  split; [left; split; reflexivity|]. split; [cbn [List.In]; tauto|].
  split; [right; reflexivity|]. split; [exists DOCTOR; reflexivity|].
  split; [right; reflexivity|]. split; reflexivity.
Defined.
